(** * PyCasia: the GNT record decoder of [CASIA.py]

    A shallow embedding of [CASIA.load_gnt_file] (the generator that reads a
    GNT file record by record) together with the part of Python's name
    resolution that decides whether [CASIA()] and [CASIA.load_dataset] can
    run.

    Conventions.
    - A file opened with ["rb"] is the list of the bytes not yet read; every
      [f.read(n)] returns at most [n] of them and moves the cursor.
    - Python integers are unbounded: they are [N] here, nothing wraps.
    - An exception is a value of [exception]; code that can raise returns
      [exception + A] and is sequenced with [x <- m ;; k].
    - [codecs.decode(_, encoding="gb2312")] and [scipy.misc.toimage] are
      library calls whose bodies are not part of [CASIA.py]: in the decoder
      they are the variables [gb2312_decode] and [toimage] of the section
      below, and both may raise. What holds for every [toimage] is proved
      with the variable; what depends on the image itself is proved with
      [Scipy.toimage], the behaviour of scipy's function on the arrays the
      decoder builds (float64 arithmetic as the kernel's floats).
    - The message printed when [silent] is false is not tracked. *)

From Stdlib Require Import List Arith NArith Lia Bool String.
From Stdlib Require Import Init.Byte.
From Stdlib Require Import ZArith.
From Stdlib Require Floats.PrimFloat Numbers.Cyclic.Int63.Uint63.
Import ListNotations.

Local Open Scope N_scope.

(** ** Exceptions and the error monad *)

Inductive exception : Type :=
| struct_error                     (* struct.error: unpack requires a buffer of n bytes *)
| UnicodeDecodeError               (* raised by codecs.decode *)
| ValueError                       (* numpy: cannot reshape array *)
| AssertionError
| NameError (name : string)
| LibraryError (code : N).         (* anything else a library call raises *)

Definition result (A : Type) : Type := (exception + A)%type.

Definition ret {A : Type} (a : A) : result A := inr a.

Definition raise {A : Type} (e : exception) : result A := inl e.

Definition bind {A B : Type} (m : result A) (k : A -> result B) : result B :=
  match m with
  | inl e => inl e
  | inr a => k a
  end.

Notation "x <- m ;; k" := (bind m (fun x => k))
  (at level 61, m at next level, right associativity).

(** ** Binary files *)

(** [f.read(n)]: the next [n] bytes, or all that is left when fewer remain,
    and the file after the read. *)
Definition read (n : N) (f : list byte) : list byte * list byte :=
  (firstn (N.to_nat n) f, skipn (N.to_nat n) f).

(** ** [struct.unpack] for the four formats the decoder uses *)

(** The value of a little-endian byte string. *)
Fixpoint le_uint (bs : list byte) : N :=
  match bs with
  | [] => 0
  | b :: rest => Byte.to_N b + 256 * le_uint rest
  end.

Definition size_of (bs : list byte) : N := N.of_nat (List.length bs).

(** [struct.unpack("<I", bs)[0]] *)
Definition unpack_I (bs : list byte) : result N :=
  if size_of bs =? 4 then ret (le_uint bs) else raise struct_error.

(** [struct.unpack("<H", bs)[0]] *)
Definition unpack_H (bs : list byte) : result N :=
  if size_of bs =? 2 then ret (le_uint bs) else raise struct_error.

(** [struct.unpack(">cc", bs)]: two [bytes] objects of length one. *)
Definition unpack_cc (bs : list byte) : result (list byte * list byte) :=
  match bs with
  | [c0; c1] => ret ([c0], [c1])
  | _ => raise struct_error
  end.

(** [struct.unpack("{}B".format(n), bs)]: a tuple of [n] integers below 256. *)
Definition unpack_B (n : N) (bs : list byte) : result (list N) :=
  if size_of bs =? n then ret (map Byte.to_N bs) else raise struct_error.

(** ** The numpy arrays the decoder builds *)

Record ndarray : Type := mk_ndarray {
  shape : list N;
  data : list N          (* the elements, in C (row-major) order *)
}.

(** [np.array(t)] for a tuple of integers. *)
Definition np_array (t : list N) : ndarray :=
  {| shape := [N.of_nat (List.length t)]; data := t |}.

(** [a.reshape(h, w)] *)
Definition reshape (a : ndarray) (h w : N) : result ndarray :=
  if h * w =? N.of_nat (List.length (data a))
  then ret {| shape := [h; w]; data := data a |}
  else raise ValueError.

(** [a[i, j]] for a two-dimensional array in C order. *)
Definition getitem2 (a : ndarray) (i j : N) : option N :=
  match shape a with
  | [h; w] =>
      if (i <? h) && (j <? w) then nth_error (data a) (N.to_nat (i * w + j))
      else None
  | _ => None
  end.

(** ** The record layout, as the specification lays it out *)

Definition byte_of_N (n : N) : byte :=
  match Byte.of_N (n mod 256) with
  | Some b => b
  | None => x00
  end.

Definition le16 (n : N) : list byte :=
  [byte_of_N n; byte_of_N (n / 256)].

Definition le32 (n : N) : list byte :=
  [byte_of_N n; byte_of_N (n / 256); byte_of_N (n / 65536); byte_of_N (n / 16777216)].

Record gnt_record : Type := mk_gnt_record {
  packed_length : N;
  label0 : byte;
  label1 : byte;
  width : N;
  height : N;
  pixels : list byte
}.

(** The ten bytes in front of the payload. *)
Definition encode_header (len : N) (c0 c1 : byte) (w h : N) : list byte :=
  le32 len ++ [c0; c1] ++ le16 w ++ le16 h.

Definition encode_record (r : gnt_record) : list byte :=
  encode_header (packed_length r) (label0 r) (label1 r) (width r) (height r)
    ++ pixels r.

Definition encode_stream (rs : list gnt_record) : list byte :=
  List.concat (map encode_record rs).

(** Every field fits its slot and the payload has [width * height] bytes. *)
Definition well_formed (r : gnt_record) : Prop :=
  packed_length r < 4294967296 /\ width r < 65536 /\ height r < 65536 /\
  size_of (pixels r) = width r * height r.

(** The array [load_gnt_file] hands to [toimage] for a record. *)
Definition grid (w h : N) (payload : list byte) : ndarray :=
  {| shape := [h; w]; data := map Byte.to_N payload |}.

(** ** The generator *)

Inductive ending : Type :=
| Exhausted                        (* the generator returned: StopIteration *)
| Failed (e : exception).          (* an exception left the generator *)

Section Decoder.

(** What [toimage] returns: a PIL image. *)
Variable Image : Type.
Variable toimage : ndarray -> result Image.

(** [decode(bs, encoding="gb2312")]: the text, as code points, or
    [UnicodeDecodeError]. *)
Variable gb2312_decode : list byte -> option (list N).

Definition decode (bs : list byte) : result (list N) :=
  match gb2312_decode bs with
  | Some text => ret text
  | None => raise UnicodeDecodeError
  end.

Definition item : Type := (Image * list N)%type.

(** One turn of [while True]. *)
Inductive step : Type :=
| Break
| Raise (e : exception)
| Yield (it : item) (f' : list byte).

(** The statements after the [break] test, up to the [yield]. *)
Definition decode_record (packed : list byte) (f : list byte)
  : result (item * list byte) :=
  length <- unpack_I packed ;;
  let (b_label, f1) := read 2 f in
  raw_label <- unpack_cc b_label ;;
  let (b_width, f2) := read 2 f1 in
  width <- unpack_H b_width ;;
  let (b_height, f3) := read 2 f2 in
  height <- unpack_H b_height ;;
  let (b_photo, f4) := read (height * width) f3 in
  photo_bytes <- unpack_B (height * width) b_photo ;;
  label <- decode (fst raw_label ++ snd raw_label) ;;
  array <- reshape (np_array photo_bytes) height width ;;
  image <- toimage array ;;
  ret ((image, label), f4).

(** What a complete record turns into: the two library calls decide. *)
Definition converted (c0 c1 : byte) (w h : N) (payload rest : list byte)
  : result (item * list byte) :=
  label <- decode [c0; c1] ;;
  image <- toimage (grid w h payload) ;;
  ret ((image, label), rest).

(** The record converts: its label decodes to [snd it] and its array
    becomes the image [fst it]. *)
Definition decodes_to (r : gnt_record) (it : item) : Prop :=
  gb2312_decode [label0 r; label1 r] = Some (snd it) /\
  toimage {| shape := [height r; width r]; data := map Byte.to_N (pixels r) |}
  = inr (fst it).

Definition loop_body (f : list byte) : step :=
  let (packed, f0) := read 4 f in
  match packed with
  | [] => Break
  | _ :: _ =>
      match decode_record packed f0 with
      | inl e => Raise e
      | inr (it, f') => Yield it f'
      end
  end.

(** Running the generator to its end: the items it yields, in order, and
    how it ends. *)
Fixpoint load_gnt_loop (fuel : nat) (f : list byte) : option (list item * ending) :=
  match fuel with
  | O => None
  | S fuel' =>
      match loop_body f with
      | Break => Some ([], Exhausted)
      | Raise e => Some ([], Failed e)
      | Yield it f' =>
          match load_gnt_loop fuel' f' with
          | Some (its, e) => Some (it :: its, e)
          | None => None
          end
      end
  end.

Definition load_gnt_file (contents : list byte) : option (list item * ending) :=
  load_gnt_loop (S (List.length contents)) contents.

(** The generator object, pulled one item at a time. *)
Inductive generator : Type :=
| Suspended (f : list byte)
| Finished.

Inductive outcome : Type :=
| Item (it : item)
| StopIteration
| Raised (e : exception).

Definition next (g : generator) : outcome * generator :=
  match g with
  | Finished => (StopIteration, Finished)
  | Suspended f =>
      match loop_body f with
      | Break => (StopIteration, Finished)
      | Raise e => (Raised e, Finished)
      | Yield it f' => (Item it, Suspended f')
      end
  end.

End Decoder.

Arguments byte_of_N : simpl never.
Arguments Break {Image}.
Arguments Raise {Image} e.
Arguments Yield {Image} it f'.
Arguments Item {Image} it.
Arguments StopIteration {Image}.
Arguments Raised {Image} e.
Arguments converted {Image} toimage gb2312_decode c0 c1 w h payload rest.
Arguments decodes_to {Image} toimage gb2312_decode r it.
Arguments decode_record {Image} toimage gb2312_decode packed f.
Arguments loop_body {Image} toimage gb2312_decode f.
Arguments load_gnt_loop {Image} toimage gb2312_decode fuel f.
Arguments load_gnt_file {Image} toimage gb2312_decode contents.
Arguments next {Image} toimage gb2312_decode g.

(** ** Streams that differ in their [packed_length] fields only *)

(** The six bytes after [packed_length] and the payload they announce. *)
Definition record_body (c0 c1 : byte) (w h : N) (payload : list byte) : list byte :=
  [c0; c1] ++ le16 w ++ le16 h ++ payload.

(** [same_stream]: nothing differs. [same_record]: the two streams start
    with a whole record each, equal but for the four length bytes, and go
    on with streams that are related again. [same_last]: after the four
    length bytes the two streams are the same to their end (this covers a
    last record that is cut short). *)
Inductive same_but_packed_length : list byte -> list byte -> Prop :=
| same_stream (f : list byte) :
    same_but_packed_length f f
| same_record (p1 p2 : list byte) (c0 c1 : byte) (w h : N)
              (payload f1 f2 : list byte) :
    size_of p1 = 4 -> size_of p2 = 4 ->
    w < 65536 -> h < 65536 -> size_of payload = w * h ->
    same_but_packed_length f1 f2 ->
    same_but_packed_length (p1 ++ record_body c0 c1 w h payload ++ f1)
                           (p2 ++ record_body c0 c1 w h payload ++ f2)
| same_last (p1 p2 tail : list byte) :
    size_of p1 = 4 -> size_of p2 = 4 ->
    same_but_packed_length (p1 ++ tail) (p2 ++ tail).

(** ** [scipy.misc.toimage], as the decoder calls it *)

Module Scipy.

(** A PIL image of mode "L": its size (width, height) and its bytes, row
    after row. *)
Record pil_image : Type := mk_pil_image {
  size : N * N;
  pixels : list N
}.

(** The float64 value of a small integer. *)
Definition to_float (n : N) : PrimFloat.float :=
  PrimFloat.of_uint63 (Uint63.of_Z (Z.of_N n)).

(** [x.clip(0, 255)] *)
Definition clip (x : PrimFloat.float) : PrimFloat.float :=
  if PrimFloat.ltb x (to_float 0) then to_float 0
  else if PrimFloat.ltb (to_float 255) x then to_float 255
  else x.

(** [x.astype(uint8)] for a float between 0 and 256: the fraction is cut
    off, which leaves the number of integers 1, 2, ..., 255 that are not
    above [x]. *)
Definition astype_uint8 (x : PrimFloat.float) : N :=
  N.of_nat (List.length
              (filter (fun k => PrimFloat.leb (to_float (N.of_nat k)) x)
                      (seq 1 255))).

(** [bytescale(data, cmin=None, cmax=None, high=255, low=0)] for an array
    that is not of type uint8 ([np.array] over Python integers is int64,
    over the empty tuple float64, so the early return for uint8 is never
    taken):
      cmin = data.min(); cmax = data.max()
      cscale = cmax - cmin; if cscale == 0: cscale = 1
      scale = float(high - low) / cscale
      bytedata = (data - cmin) * scale + low
      return (bytedata.clip(low, high) + 0.5).astype(uint8)
    [data.min()] of an array without elements raises [ValueError]. The
    arithmetic is that of float64. *)
Definition bytescale (data : list N) : result (list N) :=
  match data with
  | [] => raise ValueError
  | d0 :: more =>
      let cmin := fold_right N.min d0 more in
      let cmax := fold_right N.max d0 more in
      let cscale := if cmax - cmin =? 0 then 1 else cmax - cmin in
      let scale := PrimFloat.div (to_float (255 - 0)) (to_float cscale) in
      ret (map (fun d =>
                  astype_uint8
                    (PrimFloat.add
                       (clip (PrimFloat.add
                                (PrimFloat.mul (to_float (d - cmin)) scale)
                                (to_float 0)))
                       (PrimFloat.div (to_float 1) (to_float 2))))
               data)
  end.

(** [toimage(arr)] with the default arguments, for a two-dimensional
    array of shape (height, width):
      shape = (shape[1], shape[0])
      bytedata = bytescale(data, ...)
      image = Image.frombytes('L', shape, bytedata.tostring())
    An array of another dimension is refused with [ValueError] (the
    decoder only builds two-dimensional arrays). *)
Definition toimage (arr : ndarray) : result pil_image :=
  match shape arr with
  | [h; w] =>
      bytedata <- bytescale (data arr) ;;
      ret {| size := (w, h); pixels := bytedata |}
  | _ => raise ValueError
  end.

End Scipy.

(** ** Stand-ins for the two library calls, to run the decoder on examples *)

(** An image that is the array itself. *)
Definition array_image (a : ndarray) : result ndarray := ret a.

(** Three rows of the GB2312 table, and the ASCII range. *)
Definition gb2312_sample (bs : list byte) : option (list N) :=
  match bs with
  | [xc4; xe3] => Some [20320]          (* U+4F60 *)
  | [xba; xc3] => Some [22909]          (* U+597D *)
  | [xb0; xa1] => Some [21834]          (* U+554A *)
  | [c0; c1] =>
      if (Byte.to_N c0 <? 128) && (Byte.to_N c1 <? 128)
      then Some [Byte.to_N c0; Byte.to_N c1] else None
  | _ => None
  end.

(** A one-row image of two pixels, labelled with the bytes C4 E3. *)
Definition sample_record : gnt_record :=
  {| packed_length := 8; label0 := xc4; label1 := xe3;
     width := 2; height := 1; pixels := [x07; xff] |}.

(** Two rows of three pixels, labelled with the bytes BA C3. *)
Definition sample_record2 : gnt_record :=
  {| packed_length := 12; label0 := xba; label1 := xc3;
     width := 3; height := 2; pixels := [x01; x02; x03; x04; x05; x06] |}.

(** One pixel of value 100, labelled with the bytes C4 E3. *)
Definition one_pixel : gnt_record :=
  {| packed_length := 7; label0 := xc4; label1 := xe3;
     width := 1; height := 1; pixels := [x64] |}.

(** ** Name resolution in [CASIA.py] *)

Module PyScope.

Local Open Scope string_scope.

(** The names the module binds at top level: its imports, [__author__] and
    the two class statements. *)
Definition module_globals : list string :=
  ["glob"; "struct"; "zipfile"; "decode"; "ceil"; "listdir"; "makedirs";
   "remove"; "isdir"; "isfile"; "clock"; "urlretrieve"; "np"; "toimage";
   "tqdm"; "__author__"; "CASIA"; "DLProgress"].

(** The names bound in the body of [class CASIA]. *)
Definition CASIA_namespace : list string :=
  ["__init__"; "get_all_datasets"; "get_dataset"; "load_character_images";
   "load_dataset"; "load_gnt_file"].

(** The built-in functions and constants, and the exception classes. *)
Definition builtins : list string :=
  ["abs"; "all"; "any"; "ascii"; "bin"; "bool"; "bytearray"; "bytes";
   "callable"; "chr"; "classmethod"; "compile"; "complex"; "delattr"; "dict";
   "dir"; "divmod"; "enumerate"; "eval"; "exec"; "filter"; "float"; "format";
   "frozenset"; "getattr"; "globals"; "hasattr"; "hash"; "help"; "hex"; "id";
   "input"; "int"; "isinstance"; "issubclass"; "iter"; "len"; "list";
   "locals"; "map"; "max"; "memoryview"; "min"; "next"; "object"; "oct";
   "open"; "ord"; "pow"; "print"; "property"; "range"; "repr"; "reversed";
   "round"; "set"; "setattr"; "slice"; "sorted"; "staticmethod"; "str"; "sum";
   "super"; "tuple"; "type"; "vars"; "zip"; "__import__";
   "True"; "False"; "None"; "NotImplemented"; "Ellipsis"; "__debug__";
   "BaseException"; "Exception"; "ArithmeticError"; "AssertionError";
   "AttributeError"; "EOFError"; "ImportError"; "IndexError"; "KeyError";
   "KeyboardInterrupt"; "LookupError"; "MemoryError"; "NameError";
   "NotImplementedError"; "OSError"; "IOError"; "OverflowError";
   "RuntimeError"; "StopIteration"; "SyntaxError"; "SystemExit"; "TypeError";
   "UnboundLocalError"; "UnicodeDecodeError"; "UnicodeEncodeError";
   "UnicodeError"; "ValueError"; "ZeroDivisionError"].

Definition bound (scope : list string) (name : string) : bool :=
  existsb (String.eqb name) scope.

(** Evaluating a name that the function does not bind itself. The body of
    the enclosing class is not searched: only the module and the builtins. *)
Definition load_global (name : string) : result unit :=
  if bound module_globals name || bound builtins name
  then ret tt else raise (NameError name).

(** The free names of [load_gnt_file]. *)
Definition load_gnt_file_names : list string :=
  ["print"; "open"; "struct"; "decode"; "toimage"; "np"].

Record dataset_info : Type := mk_dataset_info {
  url : string;
  type : string
}.

(** The attributes [__init__] sets on the instance. *)
Record instance : Type := mk_instance {
  datasets : option (list (string * dataset_info));
  character_sets : option (list string)
}.

Definition blank : instance :=
  {| datasets := None; character_sets := None |}.

Definition the_datasets : list (string * dataset_info) :=
  [("competition-gnt",
    {| url := "http://www.nlpr.ia.ac.cn/databases/Download/competition/competition-gnt.zip";
       type := "GNT" |});
   ("HWDB1.1trn_gnt_P1",
    {| url := "http://www.nlpr.ia.ac.cn/databases/Download/feature_data/HWDB1.1trn_gnt_P1.zip";
       type := "GNT" |});
   ("HWDB1.1trn_gnt_P2",
    {| url := "http://www.nlpr.ia.ac.cn/databases/Download/feature_data/HWDB1.1trn_gnt_P2.zip";
       type := "GNT" |});
   ("HWDB1.1tst_gnt",
    {| url := "http://www.nlpr.ia.ac.cn/databases/download/feature_data/HWDB1.1tst_gnt.zip";
       type := "GNT" |})].

(** [CASIA.__init__(self)]. The [assert] statement comes first and is
    executed (the interpreter runs without [-O]); [answer] is what the call
    [get_all_datasets()] would return once the name is found. The result is
    the instance as the method leaves it, and how the method ends. *)
Definition __init__ (answer : bool) (self : instance) : instance * result unit :=
  match load_global "get_all_datasets" with
  | inl e => (self, inl e)
  | inr _ =>
      if answer then
        ({| datasets := Some the_datasets;
            character_sets :=
              Some (map fst (filter (fun d => String.eqb (type (snd d)) "GNT")
                                    the_datasets)) |},
         ret tt)
      else (self, raise AssertionError)
  end.

(** The call [CASIA()]. *)
Definition CASIA (answer : bool) : result instance :=
  match __init__ answer blank with
  | (self, inr _) => ret self
  | (_, inl e) => raise e
  end.

(** The loop of [load_dataset] over the paths [glob.glob] found; [callee]
    is what iterating the object bound to [load_gnt_file] would give for a
    path, once the name is found. *)
Fixpoint load_dataset_loop {A : Type} (callee : string -> list A * ending)
         (paths : list string) : list A * ending :=
  match paths with
  | [] => ([], Exhausted)
  | path :: more =>
      match load_global "load_gnt_file" with
      | inl e => ([], Failed e)
      | inr _ =>
          match callee path with
          | (its, Exhausted) =>
              let (its', e) := load_dataset_loop callee more in ((its ++ its')%list, e)
          | (its, Failed e) => (its, Failed e)
          end
      end
  end.

(** [CASIA.load_dataset(self, dataset)], run to its end; [present] is the
    value of [self.get_dataset(dataset)]. *)
Definition load_dataset {A : Type} (callee : string -> list A * ending)
           (present : bool) (paths : list string) : list A * ending :=
  if present then load_dataset_loop callee paths
  else ([], Failed AssertionError).

End PyScope.

(** ** Fetching the datasets: [get_dataset], [get_all_datasets],
       [load_dataset], [load_character_images] and [DLProgress] *)

Module Datasets.

Local Open Scope string_scope.

(** Exceptions of the file system, of the archive reader and of the calls
    themselves, next to those of the decoder. Every one of them is an
    instance of [Exception], so [except Exception] catches it. *)
Inductive pyexn : Type :=
| TypeError                        (* a call with an argument the function does not take *)
| FileNotFoundError                (* open or remove of a path that is no file *)
| BadZipFile                       (* zipfile: the archive cannot be read *)
| URLError                         (* urlretrieve: the download failed *)
| KeyError (key : string)
| AttributeError (name : string)
| Decoder (e : exception).

(** What a zip file on disk does when it is unpacked into a directory.
    An archive that has members creates the directory while they are
    written; [members] are the paths [glob] finds in that directory
    afterwards (none, when no member is a .gnt file at its top). An
    archive without any member unpacks without error and writes nothing,
    so it creates no directory. *)
Inductive archive : Type :=
| Good (members : list string)     (* extractall creates the directory and returns *)
| Unreadable                       (* ZipFile(...) raises before anything is written *)
| Damaged (members : list string)  (* extractall creates the directory, then raises *)
| Empty.                           (* no member: extractall returns, nothing is created *)

Inductive message : Type :=
| ErrorDownloading (dataset : string)
| ErrorUnzipping (zip_path : string)
| TrainedByCASIA
| GetTheFilesAt (url : string)
| TryWget.

Inductive event : Type :=
| Printed (m : message)
| Retrieved (url zip_path : string)
| Extracted (zip_path dataset : string)
| Removed (path : string).

(** The directories (with the .gnt paths inside), the zip files by path
    (the paths [isfile], [ZipFile] and [remove] are applied to; what an
    archive unpacks is kept with its directory in [dirs], not here), and
    what has happened so far. *)
Record world : Type := mk_world {
  dirs : string -> option (list string);
  files : string -> option archive;
  trail : list event
}.

Definition io (A : Type) : Type := world -> (pyexn + A) * world.

Definition isdir (w : world) (path : string) : bool :=
  match dirs w path with Some _ => true | None => false end.

Definition isfile (w : world) (path : string) : bool :=
  match files w path with Some _ => true | None => false end.

Definition record (e : event) (w : world) : world :=
  {| dirs := dirs w; files := files w; trail := (trail w ++ [e])%list |}.

Definition print (m : message) (w : world) : world := record (Printed m) w.

Definition set_dir (path : string) (members : list string) (w : world) : world :=
  {| dirs := fun p => if String.eqb p path then Some members else dirs w p;
     files := files w; trail := trail w |}.

Definition set_file (path : string) (content : option archive) (w : world) : world :=
  {| dirs := dirs w;
     files := fun p => if String.eqb p path then content else files w p;
     trail := trail w |}.

(** [os.remove(path)] *)
Definition remove (path : string) : io unit :=
  fun w =>
    match files w path with
    | Some _ => (inr tt, record (Removed path) (set_file path None w))
    | None => (inl FileNotFoundError, w)
    end.

(** [with zipfile.ZipFile(zip_path) as zip_archive:
       zip_archive.extractall(path=dataset); zip_archive.close()] *)
Definition unzip (zip_path dataset : string) : io unit :=
  fun w =>
    match files w zip_path with
    | None => (inl FileNotFoundError, w)
    | Some Unreadable => (inl BadZipFile, w)
    | Some (Good members) =>
        (inr tt, record (Extracted zip_path dataset) (set_dir dataset members w))
    | Some (Damaged members) =>
        (inl BadZipFile, set_dir dataset members w)
    | Some Empty =>
        (inr tt, record (Extracted zip_path dataset) w)
    end.

(** [glob.glob(dataset + "/*.gnt")] *)
Definition glob_gnt (w : world) (dataset : string) : list string :=
  match dirs w dataset with Some members => members | None => [] end.

(** *** [class DLProgress(tqdm)] *)

(** The attributes the class reads and writes, and the increments it has
    passed to [tqdm.update]. *)
Record progress : Type := mk_progress {
  total : option Z;
  last_block : Z;
  updates : list Z
}.

(** The parameters of [DLProgress.__init__] after [self]. *)
Definition init_parameters : list string := [].

(** [DLProgress(k1=..., k2=..., ...)]: [__init__] is called with the
    keywords; one it does not take is a [TypeError]. The body sets
    [self.total = 0]; [last_block] is the class attribute 0. *)
Definition DLProgress (keywords : list string) : pyexn + progress :=
  if forallb (fun k => PyScope.bound init_parameters k) keywords
  then inr {| total := Some 0%Z; last_block := 0%Z; updates := [] |}
  else inl TypeError.

(** [hook(self, block_num, block_size, total_size)] *)
Definition hook (self : progress) (block_num block_size : Z)
           (total_size : option Z) : progress :=
  {| total := total_size;
     updates := (updates self ++ [((block_num - last_block self) * block_size)%Z])%list;
     last_block := block_num |}.

(** *** [CASIA.get_dataset] *)

Section Network.

(** What [urlretrieve] finds at a URL: the archive it writes to
    [zip_path], or nothing and it raises. *)
Variable remote : string -> option archive.

(** [self.datasets[dataset]["url"]] *)
Definition url_of (self : PyScope.instance) (dataset : string) : pyexn + string :=
  match PyScope.datasets self with
  | None => inl (AttributeError "datasets")
  | Some table =>
      match find (fun entry => String.eqb (fst entry) dataset) table with
      | Some entry => inr (PyScope.url (snd entry))
      | None => inl (KeyError dataset)
      end
  end.

(** The body of the first [try]:
    [with DLProgress(unit='B', unit_scale=True, miniters=1, desc=dataset) as pbar:
       urlretrieve(self.datasets[dataset]["url"], zip_path, pbar.hook)] *)
Definition download (self : PyScope.instance) (dataset zip_path : string) : io unit :=
  fun w =>
    match DLProgress ["unit"; "unit_scale"; "miniters"; "desc"] with
    | inl ex => (inl ex, w)
    | inr pbar =>
        match url_of self dataset with
        | inl ex => (inl ex, w)
        | inr url =>
            match remote url with
            | Some content =>
                (inr tt, record (Retrieved url zip_path)
                                (set_file zip_path (Some content) w))
            | None => (inl URLError, w)
            end
        end
    end.

(** The body of [if iteration == 0 or was_error is True:]; the result is
    the new value of [was_error]. An exception raised inside an [except]
    block leaves the function. *)
Definition attempt (self : PyScope.instance) (dataset : string)
           (was_error : bool) : io bool :=
  fun w =>
    let zip_path := dataset ++ ".zip" in
    let '(was_error1, w1) :=
      if isfile w zip_path then (was_error, w)
      else
        match download self dataset zip_path w with
        | (inr _, w') => (was_error, w')
        | (inl ex, w') => (true, print (ErrorDownloading dataset) w')
        end in
    if isdir w1 dataset then (inr was_error1, w1)
    else
      match unzip zip_path dataset w1 with
      | (inr _, w2) => (inr was_error1, w2)
      | (inl ex, w2) =>
          match remove zip_path (print (ErrorUnzipping zip_path) w2) with
          | (inr _, w3) => (inr true, w3)
          | (inl ex', w3) => (inl ex', w3)
          end
      end.

(** [for iteration in range(5): if iteration == 0 or was_error is True: ...] *)
Fixpoint retry (iterations : list nat) (self : PyScope.instance)
         (dataset : string) (was_error : bool) : io bool :=
  fun w =>
    match iterations with
    | [] => (inr was_error, w)
    | iteration :: more =>
        if Nat.eqb iteration 0 || was_error then
          match attempt self dataset was_error w with
          | (inr was_error', w') => retry more self dataset was_error' w'
          | (inl ex, w') => (inl ex, w')
          end
        else retry more self dataset was_error w
    end.

Definition get_dataset (self : PyScope.instance) (dataset : string) : io bool :=
  fun w =>
    if isdir w dataset then (inr true, w)
    else
      match retry (seq 0 5) self dataset false w with
      | (inl ex, w') => (inl ex, w')
      | (inr false, w') => (inr true, w')
      | (inr true, w') =>
          let w1 := print TrainedByCASIA w' in
          match url_of self dataset with
          | inl ex => (inl ex, w1)
          | inr url => (inr false, print TryWget (print (GetTheFilesAt url) w1))
          end
      end.

(** *** [CASIA.get_all_datasets] *)

Fixpoint get_all_loop (self : PyScope.instance) (names : list string)
         (success : bool) : io bool :=
  fun w =>
    match names with
    | [] => (inr success, w)
    | dataset :: more =>
        match get_dataset self dataset w with
        | (inl ex, w') => (inl ex, w')
        | (inr individual_success, w') =>
            get_all_loop self more
              (if individual_success then success else false) w'
        end
    end.

Definition get_all_datasets (self : PyScope.instance) : io bool :=
  fun w =>
    match PyScope.datasets self with
    | None => (inl (AttributeError "datasets"), w)
    | Some table => get_all_loop self (map fst table) true w
    end.

(** *** [CASIA.load_dataset] and [CASIA.load_character_images] *)

(** A generator run to its end: the items, how it ends ([None]: normally)
    and the world it leaves. *)
Definition run (A : Type) : Type := world -> (list A * option pyexn) * world.

Definition of_ending (e : ending) : option pyexn :=
  match e with
  | Exhausted => None
  | Failed ex => Some (Decoder ex)
  end.

(** [load_dataset(self, dataset)]: the assertion on [get_dataset], then
    the loop over the paths [glob] finds. *)
Definition load_dataset {A : Type} (callee : string -> list A * ending)
           (self : PyScope.instance) (dataset : string) : run A :=
  fun w =>
    match get_dataset self dataset w with
    | (inl ex, w') => (([], Some ex), w')
    | (inr present, w') =>
        let (its, e) := PyScope.load_dataset callee present (glob_gnt w' dataset) in
        ((its, of_ending e), w')
    end.

(** The first loop of [load_character_images]. *)
Fixpoint assert_all (self : PyScope.instance) (names : list string) : io unit :=
  fun w =>
    match names with
    | [] => (inr tt, w)
    | dataset :: more =>
        match get_dataset self dataset w with
        | (inl ex, w') => (inl ex, w')
        | (inr true, w') => assert_all self more w'
        | (inr false, w') => (inl (Decoder AssertionError), w')
        end
    end.

(** Its second loop. *)
Fixpoint load_each {A : Type} (callee : string -> list A * ending)
         (self : PyScope.instance) (names : list string) : run A :=
  fun w =>
    match names with
    | [] => (([], None), w)
    | dataset :: more =>
        match load_dataset callee self dataset w with
        | ((its, None), w') =>
            let '((its', e), w'') := load_each callee self more w' in
            (((its ++ its')%list, e), w'')
        | ((its, Some ex), w') => ((its, Some ex), w')
        end
    end.

Definition load_character_images {A : Type} (callee : string -> list A * ending)
           (self : PyScope.instance) : run A :=
  fun w =>
    match PyScope.character_sets self with
    | None => (([], Some (AttributeError "character_sets")), w)
    | Some names =>
        match assert_all self names w with
        | (inl ex, w') => (([], Some ex), w')
        | (inr _, w') => load_each callee self names w'
        end
    end.

End Network.

(** *** Worlds to state and run the properties on *)

(** The world [get_dataset] leaves behind a damaged archive: the directory
    exists, the archive is removed, and four more downloads were tried. *)
Definition after_damaged (dataset : string) (members : list string)
           (w : world) : world :=
  print (ErrorDownloading dataset)
    (print (ErrorDownloading dataset)
       (print (ErrorDownloading dataset)
          (print (ErrorDownloading dataset)
             (record (Removed (dataset ++ ".zip"))
                (set_file (dataset ++ ".zip") None
                   (print (ErrorUnzipping (dataset ++ ".zip"))
                      (set_dir dataset members w))))))).

(** No directory, no file, nothing has happened. *)
Definition bare : world :=
  {| dirs := fun _ => None; files := fun _ => None; trail := [] |}.

(** Nothing but one zip file. *)
Definition holding (zip_path : string) (content : archive) : world :=
  set_file zip_path (Some content) bare.

(** A server that has a good archive for every URL. *)
Definition mirror (url : string) : option archive := Some (Good ["1.gnt"; "2.gnt"]).

(** The instance [__init__] would leave if it ran to its end. *)
Definition ready : PyScope.instance :=
  {| PyScope.datasets := Some PyScope.the_datasets;
     PyScope.character_sets := Some (map fst PyScope.the_datasets) |}.

(** The four data set directories are in place. *)
Definition installed : world :=
  {| dirs := fun p => if PyScope.bound (map fst PyScope.the_datasets) p
                      then Some ["1.gnt"] else None;
     files := fun _ => None; trail := [] |}.

End Datasets.

(** * Properties *)

(** ** Bytes and little-endian integers *)

Lemma to_N_byte_of_N (n : N) : Byte.to_N (byte_of_N n) = n mod 256.
Proof.
  unfold byte_of_N.
  destruct (Byte.of_N (n mod 256)) as [b|] eqn:E.
  - now apply Byte.to_of_N.
  - apply Byte.of_N_None_iff in E.
    pose proof (N.mod_upper_bound n 256). lia.
Qed.

Lemma le_uint_le16 (n : N) : n < 65536 -> le_uint (le16 n) = n.
Proof.
  intros Hn. unfold le16. cbn [le_uint].
  rewrite !to_N_byte_of_N.
  rewrite (N.mod_small (n / 256) 256) by (apply N.Div0.div_lt_upper_bound; lia).
  rewrite (N.div_mod n 256) at 3 by lia. lia.
Qed.

Lemma le_uint_le32 (n : N) : n < 4294967296 -> le_uint (le32 n) = n.
Proof.
  intros Hn. unfold le32. cbn [le_uint].
  rewrite !to_N_byte_of_N.
  replace (n / 65536) with (n / 256 / 256) by (rewrite N.Div0.div_div; reflexivity).
  replace (n / 16777216) with (n / 256 / 256 / 256)
    by (rewrite !N.Div0.div_div; reflexivity).
  rewrite (N.mod_small (n / 256 / 256 / 256) 256)
    by (repeat apply N.Div0.div_lt_upper_bound; lia).
  pose proof (N.div_mod n 256).
  pose proof (N.div_mod (n / 256) 256).
  pose proof (N.div_mod (n / 256 / 256) 256).
  lia.
Qed.

(** ** Reading from a file *)

Lemma read_app (n : N) (a b : list byte) :
  size_of a = n -> read n (a ++ b) = (a, b).
Proof.
  unfold read, size_of. intros <-. rewrite Nnat.Nat2N.id.
  rewrite firstn_app, skipn_app, firstn_all, skipn_all, Nat.sub_diag.
  cbn [firstn skipn]. now rewrite app_nil_r.
Qed.

Lemma read_short (n : N) (a : list byte) :
  size_of a < n -> fst (read n a) = a.
Proof.
  unfold read, size_of. intros H. cbn [fst].
  apply firstn_all2. lia.
Qed.

Lemma unpack_I_le32 (n : N) : n < 4294967296 -> unpack_I (le32 n) = ret n.
Proof. intros H. unfold unpack_I. cbn [size_of le32 List.length]. now rewrite le_uint_le32. Qed.

Lemma unpack_H_le16 (n : N) : n < 65536 -> unpack_H (le16 n) = ret n.
Proof. intros H. unfold unpack_H. cbn [size_of le16 List.length]. now rewrite le_uint_le16. Qed.

Lemma unpack_B_exact (n : N) (bs : list byte) :
  size_of bs = n -> unpack_B n bs = ret (map Byte.to_N bs).
Proof. intros H. unfold unpack_B. now rewrite H, N.eqb_refl. Qed.

Lemma unpack_B_short (n : N) (bs : list byte) :
  size_of bs < n -> unpack_B n bs = raise struct_error.
Proof.
  intros H. unfold unpack_B.
  destruct (N.eqb_spec (size_of bs) n); [lia | reflexivity].
Qed.

Lemma reshape_np_array (h w : N) (bs : list byte) :
  size_of bs = h * w ->
  reshape (np_array (map Byte.to_N bs)) h w = ret (grid w h bs).
Proof.
  intros H. unfold reshape, np_array, grid. cbn [data].
  rewrite length_map. fold (size_of bs). now rewrite H, N.eqb_refl.
Qed.

Lemma byte_of_N_to_N (b : byte) (k : N) : byte_of_N (Byte.to_N b + 256 * k) = b.
Proof.
  unfold byte_of_N.
  pose proof (Byte.to_N_bounded b) as Hb.
  replace ((Byte.to_N b + 256 * k) mod 256) with (Byte.to_N b).
  - now rewrite Byte.of_to_N.
  - replace (Byte.to_N b + 256 * k) with (Byte.to_N b + k * 256) by lia.
    rewrite N.Div0.mod_add. symmetry. apply N.mod_small. lia.
Qed.

Lemma le_uint_two (bs : list byte) :
  size_of bs = 2 -> le_uint bs < 65536 /\ le16 (le_uint bs) = bs.
Proof.
  destruct bs as [|a [|b [|c bs]]]; unfold size_of; cbn [List.length]; try lia.
  intros _. cbn [le_uint].
  pose proof (Byte.to_N_bounded a). pose proof (Byte.to_N_bounded b).
  split; [lia|].
  unfold le16. rewrite byte_of_N_to_N. f_equal.
  replace ((Byte.to_N a + 256 * (Byte.to_N b + 256 * 0)) / 256)
    with (Byte.to_N b + 256 * 0).
  - now rewrite byte_of_N_to_N.
  - replace (Byte.to_N a + 256 * (Byte.to_N b + 256 * 0))
      with (Byte.to_N a + (Byte.to_N b + 256 * 0) * 256) by lia.
    rewrite N.div_add by lia.
    rewrite (N.div_small (Byte.to_N a)) by lia. lia.
Qed.

Lemma div_256 (b : byte) (k : N) : (Byte.to_N b + 256 * k) / 256 = k.
Proof.
  pose proof (Byte.to_N_bounded b).
  replace (Byte.to_N b + 256 * k) with (Byte.to_N b + k * 256) by lia.
  rewrite N.div_add by lia. rewrite N.div_small by lia. reflexivity.
Qed.

Lemma le_uint_four (bs : list byte) :
  size_of bs = 4 -> le_uint bs < 4294967296 /\ le32 (le_uint bs) = bs.
Proof.
  destruct bs as [|a [|b [|c [|d [|e bs]]]]];
    unfold size_of; cbn [List.length]; try lia.
  intros _. cbn [le_uint].
  pose proof (Byte.to_N_bounded a). pose proof (Byte.to_N_bounded b).
  pose proof (Byte.to_N_bounded c). pose proof (Byte.to_N_bounded d).
  split; [lia|]. unfold le32.
  replace 65536 with (256 * 256) by reflexivity.
  replace 16777216 with (256 * 256 * 256) by reflexivity.
  rewrite <- !N.Div0.div_div, !div_256, !byte_of_N_to_N.
  reflexivity.
Qed.

Lemma read_split (n : N) (f a b : list byte) :
  read n f = (a, b) -> f = a ++ b /\ size_of a <= n.
Proof.
  unfold read, size_of. intros [= <- <-]. split.
  - symmetry. apply firstn_skipn.
  - pose proof (firstn_le_length (N.to_nat n) f). lia.
Qed.

Lemma unpack_I_inv (bs : list byte) (n : N) :
  unpack_I bs = ret n -> size_of bs = 4.
Proof.
  unfold unpack_I. destruct (N.eqb_spec (size_of bs) 4); [easy | discriminate].
Qed.

Lemma unpack_H_inv (bs : list byte) (n : N) :
  unpack_H bs = ret n -> n < 65536 /\ le16 n = bs.
Proof.
  unfold unpack_H. destruct (N.eqb_spec (size_of bs) 2); [|discriminate].
  intros [= <-]. now apply le_uint_two.
Qed.

Lemma unpack_B_inv (n : N) (bs : list byte) (t : list N) :
  unpack_B n bs = ret t -> size_of bs = n /\ t = map Byte.to_N bs.
Proof.
  unfold unpack_B. destruct (N.eqb_spec (size_of bs) n); [|discriminate].
  now intros [= <-].
Qed.

Lemma bind_inv {A B : Type} (m : result A) (k : A -> result B) (b : B) :
  bind m k = inr b -> exists a, m = inr a /\ k a = inr b.
Proof. destruct m as [e|a]; cbn; [discriminate | eauto]. Qed.

(** ** One record *)

Section DecoderFacts.

Variable Image : Type.
Variable toimage : ndarray -> result Image.
Variable gb2312_decode : list byte -> option (list N).

Local Abbreviation decode_record := (decode_record toimage gb2312_decode).
Local Abbreviation loop_body := (loop_body toimage gb2312_decode).
Local Abbreviation load_gnt_loop := (load_gnt_loop toimage gb2312_decode).
Local Abbreviation load_gnt_file := (load_gnt_file toimage gb2312_decode).
Local Abbreviation next := (next toimage gb2312_decode).
Local Abbreviation decode := (decode gb2312_decode).
Local Abbreviation converted := (converted toimage gb2312_decode).
Local Abbreviation decodes_to := (decodes_to toimage gb2312_decode).

Lemma decode_record_complete (packed : list byte) (c0 c1 : byte) (w h : N)
      (payload rest : list byte) :
  size_of packed = 4 -> w < 65536 -> h < 65536 -> size_of payload = w * h ->
  decode_record packed (record_body c0 c1 w h payload ++ rest)
  = converted c0 c1 w h payload rest.
Proof.
  intros Hp Hw Hh Hsz. unfold decode_record, record_body, unpack_I.
  rewrite Hp. cbn [N.eqb Pos.eqb bind ret].
  rewrite <- !app_assoc.
  rewrite (read_app 2 [c0; c1]) by reflexivity. cbn [unpack_cc bind ret].
  rewrite (read_app 2 (le16 w)) by reflexivity.
  rewrite unpack_H_le16 by assumption. cbn [bind ret].
  rewrite (read_app 2 (le16 h)) by reflexivity.
  rewrite unpack_H_le16 by assumption. cbn [bind ret].
  rewrite (read_app (h * w) payload) by lia.
  rewrite unpack_B_exact by lia. cbn [bind ret fst snd app].
  rewrite reshape_np_array by lia.
  reflexivity.
Qed.

Lemma decode_record_truncated (packed : list byte) (c0 c1 : byte) (w h : N)
      (payload : list byte) :
  size_of packed = 4 -> w < 65536 -> h < 65536 -> size_of payload < w * h ->
  decode_record packed (record_body c0 c1 w h payload) = raise struct_error.
Proof.
  intros Hp Hw Hh Hsz. unfold decode_record, record_body, unpack_I.
  rewrite Hp. cbn [N.eqb Pos.eqb bind ret].
  rewrite (read_app 2 [c0; c1]) by reflexivity. cbn [unpack_cc bind ret].
  rewrite (read_app 2 (le16 w)) by reflexivity.
  rewrite unpack_H_le16 by assumption. cbn [bind ret].
  rewrite (read_app 2 (le16 h)) by reflexivity.
  rewrite unpack_H_le16 by assumption. cbn [bind ret].
  destruct (read (h * w) payload) as [b_photo f4] eqn:E.
  assert (b_photo = payload) as ->.
  { change b_photo with (fst (b_photo, f4)). rewrite <- E.
    apply read_short. lia. }
  rewrite unpack_B_short by lia. reflexivity.
Qed.

(** The value of [length] is never used. *)
Lemma decode_record_packed (p1 p2 f : list byte) :
  size_of p1 = 4 -> size_of p2 = 4 -> decode_record p1 f = decode_record p2 f.
Proof.
  intros H1 H2. unfold decode_record, unpack_I.
  rewrite H1, H2. reflexivity.
Qed.

Lemma loop_body_packed (packed tail : list byte) :
  size_of packed = 4 ->
  loop_body (packed ++ tail)
  = match decode_record packed tail with
    | inl e => Raise e
    | inr (it, f') => Yield it f'
    end.
Proof.
  intros Hp. unfold loop_body.
  rewrite (read_app 4 packed) by assumption.
  destruct packed; [discriminate Hp | reflexivity].
Qed.

Lemma loop_body_record (r : gnt_record) (rest : list byte) :
  well_formed r ->
  loop_body (encode_record r ++ rest)
  = match converted (label0 r) (label1 r) (width r) (height r) (pixels r) rest with
    | inl e => Raise e
    | inr (it, f') => Yield it f'
    end.
Proof.
  intros (Hlen & Hw & Hh & Hsz). unfold encode_record, encode_header.
  rewrite <- !app_assoc, loop_body_packed by reflexivity.
  rewrite <- (decode_record_complete (le32 (packed_length r))) by easy.
  unfold record_body. now rewrite <- !app_assoc.
Qed.

Lemma loop_body_nil : loop_body [] = Break.
Proof. reflexivity. Qed.

Lemma loop_body_Break (f : list byte) : loop_body f = Break -> f = [].
Proof.
  unfold loop_body.
  destruct f as [|b f]; [reflexivity|].
  unfold read. change (N.to_nat 4) with 4%nat. cbn [firstn skipn].
  destruct (decode_record _ _) as [e|[it f']]; discriminate.
Qed.

(** A turn that yields has read a whole record: ten bytes and the payload. *)
Lemma loop_body_Yield (f f' : list byte) (it : item Image) :
  loop_body f = Yield it f' ->
  exists packed c0 c1 w h payload,
    f = packed ++ record_body c0 c1 w h payload ++ f' /\
    size_of packed = 4 /\ w < 65536 /\ h < 65536 /\ size_of payload = w * h /\
    converted c0 c1 w h payload f' = inr (it, f').
Proof.
  unfold loop_body.
  destruct (read 4 f) as [packed f0] eqn:E0.
  apply read_split in E0 as [-> _].
  destruct packed as [|p0 packed']; [discriminate|].
  set (packed := p0 :: packed').
  destruct (decode_record packed f0) as [e|[it0 f1]] eqn:E; [discriminate|].
  intros [= -> ->]. revert E. unfold decode_record.
  intros E. apply bind_inv in E as (len & Hlen & E).
  apply unpack_I_inv in Hlen.
  destruct (read 2 f0) as [b_label fa] eqn:Ea.
  apply read_split in Ea as [-> _].
  apply bind_inv in E as (raw & Hraw & E).
  destruct b_label as [|c0 [|c1 [|c2 b_label]]]; try discriminate Hraw.
  injection Hraw as <-.
  destruct (read 2 fa) as [b_width fb] eqn:Eb.
  apply read_split in Eb as [-> _].
  apply bind_inv in E as (w & Hw & E).
  apply unpack_H_inv in Hw as [Hw <-].
  destruct (read 2 fb) as [b_height fc] eqn:Ec.
  apply read_split in Ec as [-> _].
  apply bind_inv in E as (h & Hh & E).
  apply unpack_H_inv in Hh as [Hh <-].
  destruct (read (h * w) fc) as [b_photo fd] eqn:Ed.
  apply read_split in Ed as [-> _].
  apply bind_inv in E as (photo & Hphoto & E).
  apply unpack_B_inv in Hphoto as [Hsz ->].
  cbn [fst snd app] in E. rewrite reshape_np_array in E by lia.
  assert (fd = f') as ->.
  { apply bind_inv in E as (l & _ & E).
    apply bind_inv in E as (a & _ & E).
    apply bind_inv in E as (im & _ & E).
    now injection E. }
  exists packed, c0, c1, w, h, b_photo.
  unfold record_body. rewrite <- !app_assoc.
  repeat split; try assumption; lia.
Qed.

Lemma loop_body_consumes (f f' : list byte) (it : item Image) :
  loop_body f = Yield it f' -> (List.length f' + 10 <= List.length f)%nat.
Proof.
  intros H. apply loop_body_Yield in H
    as (packed & c0 & c1 & w & h & payload & -> & Hp & _).
  unfold size_of in Hp. unfold record_body, le16.
  rewrite !length_app. cbn [List.length]. lia.
Qed.

(** ** The whole file *)

Lemma load_gnt_loop_stable (n m : nat) (f : list byte) :
  (List.length f < n)%nat -> (List.length f < m)%nat ->
  load_gnt_loop n f = load_gnt_loop m f.
Proof.
  revert m f. induction n as [|n IH]; intros m f Hn Hm; [lia|].
  destruct m as [|m]; [lia|]. cbn [load_gnt_loop].
  destruct (loop_body f) as [|e|it f'] eqn:E; try reflexivity.
  apply loop_body_consumes in E.
  rewrite (IH m f') by lia. reflexivity.
Qed.

Lemma load_gnt_file_unfold (f : list byte) :
  load_gnt_file f
  = match loop_body f with
    | Break => Some ([], Exhausted)
    | Raise e => Some ([], Failed e)
    | Yield it f' =>
        match load_gnt_file f' with
        | Some (its, e) => Some (it :: its, e)
        | None => None
        end
    end.
Proof.
  unfold load_gnt_file at 1. cbn [load_gnt_loop].
  destruct (loop_body f) as [|e|it f'] eqn:E; try reflexivity.
  apply loop_body_consumes in E.
  unfold load_gnt_file.
  rewrite (load_gnt_loop_stable (List.length f) (S (List.length f'))) by lia.
  reflexivity.
Qed.

Lemma load_gnt_file_total (f : list byte) :
  exists items e,
    load_gnt_file f = Some (items, e) /\
    (10 * List.length items <= List.length f)%nat.
Proof.
  induction f as [f IH] using (induction_ltof1 _ (@List.length byte)).
  unfold ltof in IH. rewrite load_gnt_file_unfold.
  destruct (loop_body f) as [|e|it f'] eqn:E.
  - exists [], Exhausted. split; [reflexivity | cbn; lia].
  - exists [], (Failed e). split; [reflexivity | cbn; lia].
  - apply loop_body_consumes in E.
    destruct (IH f') as (its & e & -> & Hlen); [lia|].
    exists (it :: its), e. split; [reflexivity | cbn [List.length]; lia].
Qed.

(** The records in front of a stream come out first, then whatever the
    rest of the stream gives. *)
Lemma load_gnt_file_prefix (rs : list gnt_record) (items : list (item Image))
      (tail : list byte) :
  Forall well_formed rs -> Forall2 decodes_to rs items ->
  load_gnt_file (encode_stream rs ++ tail)
  = match load_gnt_file tail with
    | Some (its, e) => Some (items ++ its, e)
    | None => None
    end.
Proof.
  intros Hwf Hdec. revert Hwf.
  induction Hdec as [|r it rs items [Hl Hi] Hdec IH]; intros Hwf.
  - unfold encode_stream. cbn [map List.concat app].
    now destruct (load_gnt_file tail) as [[its e]|].
  - inversion Hwf as [|? ? Hr Hrs]; subst.
    unfold encode_stream. cbn [map List.concat]. rewrite <- app_assoc.
    rewrite load_gnt_file_unfold, loop_body_record by assumption.
    unfold converted, decode, grid. rewrite Hl. cbn [bind ret].
    rewrite Hi. cbn [bind ret].
    fold (encode_stream rs). rewrite IH by assumption.
    destruct (load_gnt_file tail) as [[its e]|]; [|reflexivity].
    destruct it. reflexivity.
Qed.

Lemma load_gnt_file_nil : load_gnt_file [] = Some ([], Exhausted).
Proof. reflexivity. Qed.

Lemma grid_row_major (w h i j : N) (payload : list byte) :
  size_of payload = w * h -> i < h -> j < w ->
  i * w + j < size_of payload /\
  getitem2 {| shape := [h; w]; data := map Byte.to_N payload |} i j
  = option_map Byte.to_N (nth_error payload (N.to_nat (i * w + j))).
Proof.
  intros Hsz Hi Hj. split; [nia|].
  unfold getitem2. cbn [shape data].
  apply N.ltb_lt in Hi, Hj. rewrite Hi, Hj. cbn [andb].
  apply nth_error_map.
Qed.

(** Fewer than ten bytes at the start of a record: some [struct.unpack]
    gets a buffer of the wrong size. *)
Lemma loop_body_short (f : list byte) :
  0 < size_of f < 10 -> loop_body f = Raise struct_error.
Proof.
  unfold size_of.
  destruct f as [|b0 [|b1 [|b2 [|b3 [|b4 [|b5 [|b6 [|b7 [|b8 [|b9 f]]]]]]]]]];
    cbn [List.length]; intros H; try lia; reflexivity.
Qed.

(** A generator that ends normally has read a stream made of whole records
    and nothing else. *)
Lemma clean_end_framed (items : list (item Image)) :
  forall f, load_gnt_file f = Some (items, Exhausted) ->
  exists rs, Forall well_formed rs /\ Forall2 decodes_to rs items /\
             f = encode_stream rs.
Proof.
  induction items as [|it items IH]; intros f; rewrite load_gnt_file_unfold;
    destruct (loop_body f) as [|e|it' f'] eqn:E; try discriminate.
  - intros _. apply loop_body_Break in E. subst f.
    exists []. repeat split; constructor.
  - destruct (load_gnt_file f') as [[its e]|]; discriminate.
  - destruct (load_gnt_file f') as [[its e]|] eqn:E'; [|discriminate].
    intros [= -> -> ->].
    destruct (IH f' E') as (rs & Hwf & Hdec & ->).
    apply loop_body_Yield in E
      as (packed & c0 & c1 & w & h & payload & -> & Hp & Hw & Hh & Hsz & Hc).
    destruct (le_uint_four packed Hp) as [Hlen Hle].
    exists ({| packed_length := le_uint packed; label0 := c0; label1 := c1;
               width := w; height := h; pixels := payload |} :: rs).
    split; [|split].
    + constructor; [|assumption]. repeat split; assumption.
    + constructor; [|assumption]. unfold converted, decode, grid in Hc.
      unfold decodes_to. cbn [label0 label1 width height pixels].
      destruct (gb2312_decode [c0; c1]) as [text|]; [|discriminate].
      cbn [bind ret] in Hc.
      destruct (toimage _) as [e|image]; [discriminate|].
      cbn [bind ret] in Hc. injection Hc as <-. now split.
    + unfold encode_stream. cbn [map List.concat].
      unfold encode_record, encode_header, record_body.
      cbn [packed_length label0 label1 width height pixels].
      rewrite Hle, <- !app_assoc. reflexivity.
Qed.

(** Whole records followed by an incomplete header: the generator fails. *)
Lemma incomplete_header_fails (rs : list gnt_record) (tail : list byte) :
  Forall well_formed rs -> 0 < size_of tail < 10 ->
  exists items e,
    load_gnt_file (encode_stream rs ++ tail) = Some (items, Failed e) /\
    (List.length items = List.length rs -> e = struct_error).
Proof.
  intros Hwf Htail. induction Hwf as [|r rs Hr Hrs IH].
  - exists [], struct_error. split; [|reflexivity].
    unfold encode_stream. cbn [map List.concat app].
    now rewrite load_gnt_file_unfold, loop_body_short.
  - destruct IH as (items & e & IH & He).
    unfold encode_stream. cbn [map List.concat]. rewrite <- app_assoc.
    fold (encode_stream rs).
    rewrite load_gnt_file_unfold, loop_body_record by assumption.
    destruct (converted _ _ _ _ _ _) as [e'|[it f']] eqn:Ec.
    + exists [], e'. split; [reflexivity | discriminate].
    + assert (f' = encode_stream rs ++ tail) as ->.
      { unfold converted in Ec.
        apply bind_inv in Ec as (l & _ & Ec).
        apply bind_inv in Ec as (im & _ & Ec). now injection Ec. }
      rewrite IH. exists (it :: items), e. split; [reflexivity|].
      cbn [List.length]. intros [= H]. auto.
Qed.

(** ** The claims about [load_gnt_file] *)

(** For any [toimage] and any codec: the file that holds one well-formed
    record gives exactly one item when the label decodes and [toimage]
    returns; the label is the text of the two label bytes and the image is
    what [toimage] makes of the array of shape (height, width) that holds
    the payload bytes. What the image looks like is up to [toimage]. *)
Lemma round_trip (r : gnt_record) (image : Image) (text : list N) :
  well_formed r ->
  gb2312_decode [label0 r; label1 r] = Some text ->
  toimage {| shape := [height r; width r]; data := map Byte.to_N (pixels r) |}
  = inr image ->
  load_gnt_file (encode_record r) = Some ([(image, text)], Exhausted).
Proof.
  intros Hwf Hl Hi.
  pose proof (load_gnt_file_prefix [r] [(image, text)] []) as H.
  unfold encode_stream in H. cbn [map List.concat] in H.
  rewrite !app_nil_r in H. rewrite H.
  - reflexivity.
  - now constructor.
  - constructor; [split; assumption | constructor].
Qed.

(** For any [toimage] and any codec: a stream of N well-formed records
    that convert gives N items, in the order of the records; the array
    handed to [toimage] for a record has [height] rows of [width] pixels
    and its element (i, j) is payload byte number [i * width + j]. *)
Lemma sequencing (rs : list gnt_record) (items : list (item Image)) :
  Forall well_formed rs ->
  Forall2 decodes_to rs items ->
  load_gnt_file (encode_stream rs) = Some (items, Exhausted) /\
  List.length items = List.length rs /\
  forall r i j, In r rs -> i < height r -> j < width r ->
    i * width r + j < size_of (pixels r) /\
    getitem2 {| shape := [height r; width r];
                data := map Byte.to_N (pixels r) |} i j
    = option_map Byte.to_N (nth_error (pixels r) (N.to_nat (i * width r + j))).
Proof.
  intros Hwf Hdec. split; [|split].
  - pose proof (load_gnt_file_prefix rs items [] Hwf Hdec) as H.
    rewrite app_nil_r in H. rewrite H, load_gnt_file_nil.
    now rewrite app_nil_r.
  - symmetry. eapply Forall2_length; eassumption.
  - intros r i j Hin Hi Hj.
    rewrite Forall_forall in Hwf. destruct (Hwf r Hin) as (_ & _ & _ & Hsz).
    now apply grid_row_major.
Qed.

(** C3. Truncation: when the records in front are well formed and the last
    header announces more payload bytes than the stream still holds, the
    generator yields the items of the records in front and then raises
    [struct.error]; it yields nothing for the short record and does not
    end normally. *)
Theorem truncation_detected (rs : list gnt_record) (items : list (item Image))
        (len : N) (c0 c1 : byte) (w h : N) (payload : list byte) :
  Forall well_formed rs ->
  Forall2 decodes_to rs items ->
  len < 4294967296 -> w < 65536 -> h < 65536 ->
  size_of payload < w * h ->
  load_gnt_file (encode_stream rs ++ encode_header len c0 c1 w h ++ payload)
  = Some (items, Failed struct_error).
Proof.
  intros Hwf Hdec Hlen Hw Hh Hsz.
  rewrite (load_gnt_file_prefix rs items) by assumption.
  rewrite load_gnt_file_unfold.
  unfold encode_header. rewrite <- !app_assoc.
  rewrite loop_body_packed by reflexivity.
  pose proof (decode_record_truncated (le32 len) c0 c1 w h payload) as H.
  unfold record_body in H. rewrite H by easy.
  unfold raise. now rewrite app_nil_r.
Qed.

(** C9. Finiteness: on every finite file the generator stops, normally or
    with an exception, after finitely many items; a turn of the loop that
    yields has consumed at least ten bytes, so there are at most
    [length / 10] items. *)
Theorem finiteness (contents : list byte) :
  (exists items e,
      load_gnt_file contents = Some (items, e) /\
      (10 * List.length items <= List.length contents)%nat) /\
  (forall it f', loop_body contents = Yield it f' ->
      (List.length f' + 10 <= List.length contents)%nat).
Proof.
  split.
  - apply load_gnt_file_total.
  - intros it f'. apply loop_body_consumes.
Qed.

(** C4. Clean end only at a record boundary: the empty file gives no item
    and no error; a turn of the loop breaks only when no byte is left; a
    generator that ended normally has read whole records and nothing else;
    and with one to three bytes left after whole records the generator
    fails (with [struct.error] when every record in front was yielded). *)
Theorem clean_end_only_at_boundary :
  load_gnt_file [] = Some ([], Exhausted) /\
  (forall f, loop_body f = Break <-> f = []) /\
  (forall f items, load_gnt_file f = Some (items, Exhausted) ->
     exists rs, Forall well_formed rs /\ Forall2 decodes_to rs items /\
                f = encode_stream rs) /\
  (forall rs tail, Forall well_formed rs -> 1 <= size_of tail <= 3 ->
     exists items e,
       load_gnt_file (encode_stream rs ++ tail) = Some (items, Failed e) /\
       (List.length items = List.length rs -> e = struct_error)).
Proof.
  split; [apply load_gnt_file_nil|]. split; [|split].
  - intros f. split; [apply loop_body_Break | intros ->; apply loop_body_nil].
  - intros f items. apply clean_end_framed.
  - intros rs tail Hwf Htail. apply incomplete_header_fails; [assumption | lia].
Qed.


(** C6. An undecodable label aborts the sequence: after the items of the
    records in front, the generator raises [UnicodeDecodeError], whatever
    follows the bad record in the stream; the generator is then finished
    and every later pull gives [StopIteration]. *)
Theorem invalid_label_aborts (rs : list gnt_record) (items : list (item Image))
        (r : gnt_record) (rest : list byte) :
  Forall well_formed rs ->
  Forall2 decodes_to rs items ->
  well_formed r ->
  gb2312_decode [label0 r; label1 r] = None ->
  load_gnt_file (encode_stream rs ++ encode_record r ++ rest)
  = Some (items, Failed UnicodeDecodeError) /\
  next (Suspended (encode_record r ++ rest)) = (Raised UnicodeDecodeError, Finished) /\
  next Finished = (StopIteration, Finished).
Proof.
  intros Hwf Hdec Hr Hl.
  assert (loop_body (encode_record r ++ rest) = Raise UnicodeDecodeError) as Hb.
  { rewrite loop_body_record by assumption.
    unfold converted, decode. now rewrite Hl. }
  split; [|split].
  - rewrite (load_gnt_file_prefix rs items) by assumption.
    rewrite load_gnt_file_unfold, Hb. now rewrite app_nil_r.
  - unfold next. now rewrite Hb.
  - reflexivity.
Qed.

(** C7. [packed_length] is vestigial: two streams that differ only in the
    four bytes of the [packed_length] fields give the same items and the
    same ending. *)
Theorem packed_length_vestigial (f1 f2 : list byte) :
  same_but_packed_length f1 f2 -> load_gnt_file f1 = load_gnt_file f2.
Proof.
  induction 1 as [f | p1 p2 c0 c1 w h payload f1 f2 H1 H2 Hw Hh Hsz _ IH
                    | p1 p2 tail H1 H2].
  - reflexivity.
  - rewrite (load_gnt_file_unfold (p1 ++ _)), (load_gnt_file_unfold (p2 ++ _)).
    rewrite !loop_body_packed, !decode_record_complete by assumption.
    unfold converted.
    destruct (decode [c0; c1]) as [e|label]; [reflexivity|]. cbn [bind ret].
    destruct (toimage _) as [e|image]; [reflexivity|]. cbn [bind ret].
    now rewrite IH.
  - rewrite (load_gnt_file_unfold (p1 ++ _)), (load_gnt_file_unfold (p2 ++ _)).
    rewrite !loop_body_packed by assumption.
    now rewrite (decode_record_packed p1 p2).
Qed.

(** For any [toimage] and any codec: a record of width 1 and height 1
    hands [toimage] the array of its single payload byte; with width 0 or
    height 0 the turn reads nothing after the header, no [struct.unpack]
    and no [reshape] fails, and the outcome of the turn is that of the
    codec and of [toimage] on the empty array. *)
Lemma boundary_dimensions (len : N) (c0 c1 : byte) (rest : list byte) :
  len < 4294967296 ->
  (forall p text image,
      gb2312_decode [c0; c1] = Some text ->
      toimage {| shape := [1; 1]; data := [Byte.to_N p] |} = inr image ->
      loop_body (encode_header len c0 c1 1 1 ++ [p] ++ rest)
      = Yield (image, text) rest) /\
  (forall w h, w < 65536 -> h < 65536 -> w = 0 \/ h = 0 ->
      loop_body (encode_header len c0 c1 w h ++ rest)
      = match converted c0 c1 w h [] rest with
        | inl e => Raise e
        | inr (it, f') => Yield it f'
        end /\
      forall text image,
        gb2312_decode [c0; c1] = Some text ->
        toimage {| shape := [h; w]; data := [] |} = inr image ->
        loop_body (encode_header len c0 c1 w h ++ rest)
        = Yield (image, text) rest).
Proof.
  intros Hlen. split.
  - intros p text image Hl Hi.
    pose proof (loop_body_record
                  {| packed_length := len; label0 := c0; label1 := c1;
                     width := 1; height := 1; pixels := [p] |} rest) as H.
    unfold encode_record in H.
    cbn [packed_length label0 label1 width height pixels] in H.
    rewrite <- app_assoc in H. rewrite H by (repeat split; assumption).
    unfold converted, decode, grid. rewrite Hl. cbn [bind ret map].
    now rewrite Hi.
  - intros w h Hw Hh Hz.
    pose proof (loop_body_record
                  {| packed_length := len; label0 := c0; label1 := c1;
                     width := w; height := h; pixels := [] |} rest) as H.
    unfold encode_record in H.
    cbn [packed_length label0 label1 width height pixels] in H.
    rewrite app_nil_r in H.
    assert (well_formed {| packed_length := len; label0 := c0; label1 := c1;
                           width := w; height := h; pixels := [] |}) as Hwf.
    { repeat split; try assumption.
      cbn [pixels width height]. change (size_of []) with 0.
      destruct Hz; subst; lia. }
    specialize (H Hwf). split; [exact H|].
    intros text image Hl Hi. rewrite H.
    unfold converted, decode, grid. rewrite Hl. cbn [bind ret map].
    now rewrite Hi.
Qed.

End DecoderFacts.

(** ** The claim about the class interface *)

Lemma two_names_unbound :
  PyScope.load_global "get_all_datasets" = raise (NameError "get_all_datasets") /\
  PyScope.load_global "load_gnt_file" = raise (NameError "load_gnt_file").
Proof. split; reflexivity. Qed.

(** C10. The instance interface cannot be used: [CASIA()] raises
    [NameError] for [get_all_datasets] and leaves the instance without
    [datasets]; [load_dataset] raises [NameError] for [load_gnt_file] at
    the first path it iterates over; both names are bound only in the body
    of the class, which a method does not search. Every free name of the
    static method [load_gnt_file] is bound, and on an empty file it ends
    normally. *)
Theorem instance_interface_unusable :
  (forall answer,
      PyScope.CASIA answer = raise (NameError "get_all_datasets")) /\
  (forall answer self,
      PyScope.__init__ answer self = (self, raise (NameError "get_all_datasets"))) /\
  (forall (A : Type) (callee : string -> list A * ending) path more,
      PyScope.load_dataset callee true (path :: more)
      = ([], Failed (NameError "load_gnt_file"))) /\
  (forall name, In name ["get_all_datasets"; "load_gnt_file"]%string ->
      In name PyScope.CASIA_namespace /\
      PyScope.bound PyScope.module_globals name = false /\
      PyScope.bound PyScope.builtins name = false) /\
  Forall (fun name => PyScope.load_global name = ret tt)
         PyScope.load_gnt_file_names /\
  (forall (Image : Type) toimage gb2312_decode,
      @load_gnt_file Image toimage gb2312_decode [] = Some ([], Exhausted)).
Proof.
  destruct two_names_unbound as [Hinit Hload].
  split; [|split; [|split; [|split; [|split]]]].
  - intros answer. unfold PyScope.CASIA, PyScope.__init__.
    now rewrite Hinit.
  - intros answer self. unfold PyScope.__init__. now rewrite Hinit.
  - intros A callee path more. unfold PyScope.load_dataset.
    cbn [PyScope.load_dataset_loop]. now rewrite Hload.
  - intros name [<-|[<-|[]]]; repeat split; cbn; auto 10.
  - repeat constructor.
  - reflexivity.
Qed.

(** ** The claims at concrete files *)

Example round_trip_with_stand_ins :
  load_gnt_file array_image gb2312_sample (encode_record sample_record)
  = Some ([({| shape := [1; 2]; data := [7; 255] |}, [20320])], Exhausted).
Proof.
  apply (round_trip ndarray array_image gb2312_sample sample_record).
  - repeat split.
  - reflexivity.
  - reflexivity.
Defined.

Example sequencing_with_stand_ins :
  load_gnt_file array_image gb2312_sample
    (encode_stream [sample_record; sample_record2])
  = Some ([({| shape := [1; 2]; data := [7; 255] |}, [20320]);
           ({| shape := [2; 3]; data := [1; 2; 3; 4; 5; 6] |}, [22909])],
          Exhausted).
Proof.
  apply (sequencing ndarray array_image gb2312_sample
           [sample_record; sample_record2]).
  - repeat constructor.
  - repeat constructor.
Defined.

Lemma truncation_detected_witness :
  load_gnt_file array_image gb2312_sample
    (encode_stream [sample_record] ++ encode_header 12 xba xc3 3 2 ++ [x01; x02])
  = Some ([({| shape := [1; 2]; data := [7; 255] |}, [20320])],
          Failed struct_error).
Proof.
  apply (truncation_detected ndarray array_image gb2312_sample [sample_record]).
  - repeat constructor.
  - repeat constructor.
  - reflexivity.
  - reflexivity.
  - reflexivity.
  - reflexivity.
Defined.

Lemma finiteness_witness :
  (List.length (@nil byte) + 10 <= List.length (encode_record sample_record))%nat.
Proof.
  apply (proj2 (finiteness ndarray array_image gb2312_sample
                  (encode_record sample_record))
               ({| shape := [1; 2]; data := [7; 255] |}, [20320]) []).
  reflexivity.
Defined.

Lemma clean_end_only_at_boundary_witness :
  exists items e,
    load_gnt_file array_image gb2312_sample
      (encode_stream [sample_record] ++ [x01; x00; x00])
    = Some (items, Failed e) /\
    (List.length items = List.length [sample_record] -> e = struct_error).
Proof.
  apply (proj2 (proj2 (proj2
           (clean_end_only_at_boundary ndarray array_image gb2312_sample)))
           [sample_record] [x01; x00; x00]).
  - repeat constructor.
  - split; discriminate.
Defined.


Lemma invalid_label_aborts_witness :
  load_gnt_file array_image gb2312_sample
    (encode_stream [sample_record]
       ++ encode_record {| packed_length := 8; label0 := xff; label1 := xff;
                           width := 1; height := 1; pixels := [x09] |}
       ++ encode_record sample_record2)
  = Some ([({| shape := [1; 2]; data := [7; 255] |}, [20320])],
          Failed UnicodeDecodeError).
Proof.
  apply (invalid_label_aborts ndarray array_image gb2312_sample [sample_record]).
  - repeat constructor.
  - repeat constructor.
  - repeat split.
  - reflexivity.
Defined.

Lemma packed_length_vestigial_witness :
  load_gnt_file array_image gb2312_sample
    (le32 8 ++ record_body xc4 xe3 2 1 [x07; xff] ++ le32 3 ++ [xba])
  = load_gnt_file array_image gb2312_sample
    (le32 77777 ++ record_body xc4 xe3 2 1 [x07; xff] ++ le32 0 ++ [xba]).
Proof.
  apply (packed_length_vestigial ndarray array_image gb2312_sample).
  apply same_record; try reflexivity.
  apply same_last; reflexivity.
Defined.

Example boundary_dimensions_with_stand_ins :
  loop_body array_image gb2312_sample
    (encode_header 6 xc4 xe3 0 5 ++ encode_record sample_record)
  = Yield ({| shape := [5; 0]; data := [] |}, [20320])
          (encode_record sample_record).
Proof.
  apply (proj2 (boundary_dimensions ndarray array_image gb2312_sample
                  6 xc4 xe3 (encode_record sample_record) eq_refl) 0 5).
  - reflexivity.
  - reflexivity.
  - left. reflexivity.
  - reflexivity.
  - reflexivity.
Defined.

(** ** Further runs *)

(** The payload is unpacked before the label is decoded: a record that is
    both cut short and badly labelled raises [struct.error]. *)
Example short_payload_before_bad_label :
  load_gnt_file array_image gb2312_sample
    (encode_header 10 xff xff 2 2 ++ [x01; x02; x03])
  = Some ([], Failed struct_error).
Proof. reflexivity. Qed.

(** Four to nine bytes at a record boundary fail as one to three do. *)
Example seven_bytes_left :
  load_gnt_file array_image gb2312_sample
    (encode_record sample_record ++ [x08; x00; x00; x00; xc4; xe3; x01])
  = Some ([({| shape := [1; 2]; data := [7; 255] |}, [20320])],
          Failed struct_error).
Proof. reflexivity. Qed.

(** Pulling the generator: two items, then [StopIteration] for ever. *)
Example pull_two_records :
  let g0 := Suspended (encode_stream [sample_record; sample_record2]) in
  let '(o1, g1) := next array_image gb2312_sample g0 in
  let '(o2, g2) := next array_image gb2312_sample g1 in
  let '(o3, g3) := next array_image gb2312_sample g2 in
  let '(o4, g4) := next array_image gb2312_sample g3 in
  [o1; o2; o3; o4]
  = [Item ({| shape := [1; 2]; data := [7; 255] |}, [20320]);
     Item ({| shape := [2; 3]; data := [1; 2; 3; 4; 5; 6] |}, [22909]);
     StopIteration; StopIteration] /\
  g4 = Finished.
Proof. split; reflexivity. Qed.

(** Element (1, 2) of the second sample: payload byte number 1 * 3 + 2. *)
Example second_row_third_pixel :
  getitem2 {| shape := [2; 3]; data := [1; 2; 3; 4; 5; 6] |} 1 2 = Some 6.
Proof. reflexivity. Qed.

(** A failure of [toimage] leaves the generator as any other exception. *)
Example toimage_failure_propagates :
  load_gnt_file (fun _ : ndarray => @raise unit (LibraryError 1)) gb2312_sample
    (encode_record sample_record)
  = Some ([], Failed (LibraryError 1)).
Proof. reflexivity. Qed.

(** * Fetching the datasets *)

Module DatasetFacts.

Import Datasets.

Local Open Scope string_scope.

Section Fetch.

Variable remote : string -> option archive.

(** [DLProgress] is called with four keywords and [__init__] takes none. *)
Lemma download_fails (self : PyScope.instance) (dataset zip_path : string)
      (w : world) :
  download remote self dataset zip_path w = (inl TypeError, w).
Proof. reflexivity. Qed.

Ltac attempt_step Hd Hf :=
  unfold attempt, isfile, isdir, unzip, remove;
  repeat (cbn [print record set_dir set_file dirs files trail fst snd];
          rewrite ?download_fails, ?String.eqb_refl, ?Hd, ?Hf);
  try reflexivity.

Ltac settle :=
  cbn [print record set_dir set_file dirs files trail];
  rewrite ?String.eqb_refl; try reflexivity; try assumption.

(** ** One turn of the retry loop, by what is on disk *)

Lemma attempt_no_archive self dataset was_error w :
  dirs w dataset = None -> files w (dataset ++ ".zip") = None ->
  attempt remote self dataset was_error w
  = (inl FileNotFoundError,
     print (ErrorUnzipping (dataset ++ ".zip")) (print (ErrorDownloading dataset) w)).
Proof. intros Hd Hf. attempt_step Hd Hf. Qed.

Lemma attempt_directory_only self dataset was_error w ms :
  dirs w dataset = Some ms -> files w (dataset ++ ".zip") = None ->
  attempt remote self dataset was_error w
  = (inr true, print (ErrorDownloading dataset) w).
Proof. intros Hd Hf. attempt_step Hd Hf. Qed.

Lemma attempt_good self dataset was_error w ms :
  dirs w dataset = None -> files w (dataset ++ ".zip") = Some (Good ms) ->
  attempt remote self dataset was_error w
  = (inr was_error,
     record (Extracted (dataset ++ ".zip") dataset) (set_dir dataset ms w)).
Proof. intros Hd Hf. attempt_step Hd Hf. Qed.

Lemma attempt_empty self dataset was_error w :
  dirs w dataset = None -> files w (dataset ++ ".zip") = Some Empty ->
  attempt remote self dataset was_error w
  = (inr was_error, record (Extracted (dataset ++ ".zip") dataset) w).
Proof. intros Hd Hf. attempt_step Hd Hf. Qed.

Lemma attempt_unreadable self dataset was_error w :
  dirs w dataset = None -> files w (dataset ++ ".zip") = Some Unreadable ->
  attempt remote self dataset was_error w
  = (inr true,
     record (Removed (dataset ++ ".zip"))
       (set_file (dataset ++ ".zip") None
          (print (ErrorUnzipping (dataset ++ ".zip")) w))).
Proof. intros Hd Hf. attempt_step Hd Hf. Qed.

Lemma attempt_damaged self dataset was_error w ms :
  dirs w dataset = None -> files w (dataset ++ ".zip") = Some (Damaged ms) ->
  attempt remote self dataset was_error w
  = (inr true,
     record (Removed (dataset ++ ".zip"))
       (set_file (dataset ++ ".zip") None
          (print (ErrorUnzipping (dataset ++ ".zip")) (set_dir dataset ms w)))).
Proof. intros Hd Hf. attempt_step Hd Hf. Qed.

(** ** [get_dataset], by what is on disk *)

Lemma get_dataset_present self dataset w ms :
  dirs w dataset = Some ms -> get_dataset remote self dataset w = (inr true, w).
Proof. intros Hd. unfold get_dataset, isdir. now rewrite Hd. Qed.

Lemma get_dataset_no_archive self dataset w :
  dirs w dataset = None -> files w (dataset ++ ".zip") = None ->
  get_dataset remote self dataset w
  = (inl FileNotFoundError,
     print (ErrorUnzipping (dataset ++ ".zip")) (print (ErrorDownloading dataset) w)).
Proof.
  intros Hd Hf. unfold get_dataset, isdir. rewrite Hd.
  cbn [seq retry Nat.eqb orb].
  now rewrite attempt_no_archive.
Qed.

Lemma get_dataset_good self dataset w ms :
  dirs w dataset = None -> files w (dataset ++ ".zip") = Some (Good ms) ->
  get_dataset remote self dataset w
  = (inr true, record (Extracted (dataset ++ ".zip") dataset) (set_dir dataset ms w)).
Proof.
  intros Hd Hf. unfold get_dataset, isdir. rewrite Hd.
  cbn [seq retry Nat.eqb orb].
  now rewrite (attempt_good _ _ _ _ ms).
Qed.

Lemma get_dataset_empty self dataset w :
  dirs w dataset = None -> files w (dataset ++ ".zip") = Some Empty ->
  get_dataset remote self dataset w
  = (inr true, record (Extracted (dataset ++ ".zip") dataset) w).
Proof.
  intros Hd Hf. unfold get_dataset, isdir. rewrite Hd.
  cbn [seq retry Nat.eqb orb].
  now rewrite attempt_empty.
Qed.

Lemma get_dataset_unreadable self dataset w :
  dirs w dataset = None -> files w (dataset ++ ".zip") = Some Unreadable ->
  get_dataset remote self dataset w
  = (inl FileNotFoundError,
     print (ErrorUnzipping (dataset ++ ".zip"))
       (print (ErrorDownloading dataset)
          (record (Removed (dataset ++ ".zip"))
             (set_file (dataset ++ ".zip") None
                (print (ErrorUnzipping (dataset ++ ".zip")) w))))).
Proof.
  intros Hd Hf. unfold get_dataset, isdir. rewrite Hd.
  cbn [seq retry Nat.eqb orb].
  rewrite attempt_unreadable by assumption.
  rewrite attempt_no_archive by settle. reflexivity.
Qed.

Lemma get_dataset_damaged self dataset w ms :
  dirs w dataset = None -> files w (dataset ++ ".zip") = Some (Damaged ms) ->
  get_dataset remote self dataset w
  = match url_of self dataset with
    | inl ex => (inl ex, print TrainedByCASIA (after_damaged dataset ms w))
    | inr url =>
        (inr false,
         print TryWget (print (GetTheFilesAt url)
           (print TrainedByCASIA (after_damaged dataset ms w))))
    end.
Proof.
  intros Hd Hf. unfold get_dataset, isdir. rewrite Hd.
  cbn [seq retry Nat.eqb orb].
  rewrite (attempt_damaged _ _ _ _ ms) by assumption.
  do 4 (rewrite (attempt_directory_only _ _ _ _ ms) by settle).
  reflexivity.
Qed.

(** The six situations [get_dataset] can start from, each with the
    equation for its result. *)
Ltac by_start self dataset w :=
  let ms := fresh "ms" in
  let Hd := fresh "Hd" in
  let Hf := fresh "Hf" in
  destruct (dirs w dataset) as [ms|] eqn:Hd;
  [ rewrite (get_dataset_present self dataset w ms Hd)
  | destruct (files w (dataset ++ ".zip")) as [[ms| |ms| ]|] eqn:Hf;
    [ rewrite (get_dataset_good self dataset w ms Hd Hf)
    | rewrite (get_dataset_unreadable self dataset w Hd Hf)
    | rewrite (get_dataset_damaged self dataset w ms Hd Hf);
      destruct (url_of self dataset)
    | rewrite (get_dataset_empty self dataset w Hd Hf)
    | rewrite (get_dataset_no_archive self dataset w Hd Hf) ] ].

Ltac files_shrink :=
  let p := fresh "p" in
  let a := fresh "a" in
  intros p a; unfold after_damaged;
  cbn [print record set_dir set_file dirs files trail];
  try (destruct (String.eqb p _)); congruence.

Ltac no_retrieved :=
  let url := fresh "url" in
  let p := fresh "p" in
  let H := fresh "H" in
  intros url p H; unfold after_damaged in H;
  cbn [print record set_dir set_file dirs files trail] in H;
  repeat (apply in_app_or in H; destruct H as [H|[H|[]]]; [|discriminate H]);
  exact H.

(** ** What [get_dataset] does *)

(** X6. [get_dataset] never downloads: [DLProgress] is called with
    keywords its [__init__] does not take, so the [try] block is left
    before [urlretrieve] is called; no retrieval is ever recorded, and
    what [get_dataset] returns and does is the same for every server. *)
Theorem get_dataset_never_reaches_urlretrieve (self : PyScope.instance)
        (dataset : string) (w : world) :
  (forall url p,
      In (Retrieved url p) (trail (snd (get_dataset remote self dataset w))) ->
      In (Retrieved url p) (trail w)) /\
  (forall remote' : string -> option archive,
      get_dataset remote' self dataset w = get_dataset remote self dataset w).
Proof.
  split.
  - by_start self dataset w; cbn [snd]; no_retrieved.
  - intros remote'. unfold get_dataset.
    destruct (isdir w dataset); [reflexivity|].
    assert (forall iterations was_error w0,
               retry remote' iterations self dataset was_error w0
               = retry remote iterations self dataset was_error w0) as Hretry.
    { induction iterations as [|iteration more IH]; intros was_error w0;
        [reflexivity|].
      cbn [retry].
      assert (attempt remote' self dataset was_error w0
              = attempt remote self dataset was_error w0) as -> by reflexivity.
      destruct (Nat.eqb iteration 0 || was_error).
      - destruct (attempt remote self dataset was_error w0) as [[ex|b] w1];
          [reflexivity | apply IH].
      - apply IH. }
    now rewrite Hretry.
Qed.


(** X8. With a good archive on disk and no directory, [get_dataset]
    unpacks it and returns [True]: the directory then holds the members of
    the archive, and the archive is still there. *)
Theorem good_archive_is_unpacked (self : PyScope.instance) (dataset : string)
        (w : world) (members : list string) :
  dirs w dataset = None ->
  files w (dataset ++ ".zip") = Some (Good members) ->
  let (r, w') := get_dataset remote self dataset w in
  r = inr true /\
  glob_gnt w' dataset = members /\
  files w' = files w /\
  trail w' = (trail w ++ [Extracted (dataset ++ ".zip") dataset])%list.
Proof.
  intros Hd Hf. rewrite (get_dataset_good _ _ _ members) by assumption.
  unfold glob_gnt. cbn [record set_dir dirs files trail].
  rewrite String.eqb_refl. repeat split.
Qed.

(** X9. With an archive that cannot be opened, [get_dataset] deletes the
    archive and then raises [FileNotFoundError] in its second turn; no
    directory is created. *)
Theorem unreadable_archive_is_deleted (self : PyScope.instance)
        (dataset : string) (w : world) :
  dirs w dataset = None ->
  files w (dataset ++ ".zip") = Some Unreadable ->
  let (r, w') := get_dataset remote self dataset w in
  r = inl FileNotFoundError /\
  files w' (dataset ++ ".zip") = None /\
  dirs w' = dirs w /\
  In (Removed (dataset ++ ".zip")) (trail w').
Proof.
  intros Hd Hf. rewrite get_dataset_unreadable by assumption.
  cbn [print record set_file dirs files trail].
  rewrite String.eqb_refl. repeat split.
  rewrite !in_app_iff. cbn [In]. auto 10.
Qed.



(** X11. [get_dataset] returns [False] only after an archive failed while
    it was being unpacked: by then the directory exists and the archive
    is deleted, so the next call returns [True] without doing anything. *)
Theorem false_only_after_damaged_archive (self : PyScope.instance)
        (dataset : string) (w w' : world) :
  get_dataset remote self dataset w = (inr false, w') ->
  exists members,
    dirs w dataset = None /\
    files w (dataset ++ ".zip") = Some (Damaged members) /\
    files w' (dataset ++ ".zip") = None /\
    dirs w' dataset = Some members /\
    get_dataset remote self dataset w' = (inr true, w').
Proof.
  by_start self dataset w; try discriminate.
  intros [= <-]. exists ms.
  assert (dirs (print TryWget (print (GetTheFilesAt s)
            (print TrainedByCASIA (after_damaged dataset ms w)))) dataset
          = Some ms) as Hdir by (unfold after_damaged; settle).
  repeat split; try assumption.
  - unfold after_damaged. settle.
  - now apply (get_dataset_present _ _ _ ms).
Qed.


(** ** [get_all_datasets] *)

Lemma get_all_loop_present (self : PyScope.instance) (names : list string)
      (success : bool) (w : world) :
  (forall d, In d names -> isdir w d = true) ->
  get_all_loop remote self names success w = (inr success, w).
Proof.
  revert success. induction names as [|dataset more IH]; intros success H.
  - reflexivity.
  - cbn [get_all_loop]. unfold get_dataset at 1.
    rewrite (H dataset) by now left.
    apply IH. intros d Hd. apply H. now right.
Qed.


(** X12. When every data set directory is in place, [get_all_datasets]
    returns [True] and touches nothing. *)
Theorem get_all_datasets_all_present (self : PyScope.instance)
        (table : list (string * PyScope.dataset_info)) (w : world) :
  PyScope.datasets self = Some table ->
  (forall d, In d (map fst table) -> isdir w d = true) ->
  get_all_datasets remote self w = (inr true, w).
Proof.
  intros Ht H. unfold get_all_datasets. rewrite Ht.
  now apply get_all_loop_present.
Qed.


(** ** The generators over the data sets *)

Lemma class_load_dataset_no_items {A : Type} (callee : string -> list A * ending)
      (present : bool) (paths : list string) :
  fst (PyScope.load_dataset callee present paths) = [].
Proof.
  unfold PyScope.load_dataset. destruct present; [|reflexivity].
  destruct paths as [|path more]; [reflexivity|].
  cbn [PyScope.load_dataset_loop].
  now rewrite (proj2 two_names_unbound).
Qed.

Lemma load_dataset_no_items {A : Type} (callee : string -> list A * ending)
      (self : PyScope.instance) (dataset : string) (w : world) :
  fst (fst (load_dataset remote callee self dataset w)) = [].
Proof.
  unfold load_dataset.
  destruct (get_dataset remote self dataset w) as [[ex|present] w1];
    [reflexivity|].
  pose proof (class_load_dataset_no_items callee present (glob_gnt w1 dataset)) as H.
  destruct (PyScope.load_dataset callee present (glob_gnt w1 dataset)) as [its e].
  exact H.
Qed.

Lemma load_each_no_items {A : Type} (callee : string -> list A * ending)
      (self : PyScope.instance) (names : list string) :
  forall w, fst (fst (load_each remote callee self names w)) = [].
Proof.
  induction names as [|dataset more IH]; intros w; [reflexivity|].
  cbn [load_each].
  pose proof (load_dataset_no_items callee self dataset w) as H.
  destruct (load_dataset remote callee self dataset w) as [[its [ex|]] w1];
    cbn [fst] in H; subst its; [reflexivity|].
  specialize (IH w1).
  destruct (load_each remote callee self more w1) as [[its' e] w2].
  exact IH.
Qed.

(** X14. [load_dataset] and [load_character_images] never yield an item,
    whatever is on disk, whatever the server holds and whatever the object
    bound to [load_gnt_file] would do: the name is looked up before any
    file is read. *)
Theorem generators_over_datasets_yield_nothing {A : Type}
        (callee : string -> list A * ending) (self : PyScope.instance)
        (dataset : string) (w : world) :
  fst (fst (load_dataset remote callee self dataset w)) = [] /\
  fst (fst (load_character_images remote callee self w)) = [].
Proof.
  split; [apply load_dataset_no_items|].
  unfold load_character_images.
  destruct (PyScope.character_sets self) as [names|]; [|reflexivity].
  destruct (assert_all remote self names w) as [[ex|u] w1]; [reflexivity|].
  apply load_each_no_items.
Qed.

(** X15. With a data set directory that holds at least one .gnt path,
    [load_dataset] fails with [NameError] for [load_gnt_file] and leaves
    the world as it is; with a directory without such a path it ends
    normally. *)
Theorem load_dataset_on_installed {A : Type}
        (callee : string -> list A * ending) (self : PyScope.instance)
        (dataset : string) (w : world) (members : list string) :
  dirs w dataset = Some members ->
  load_dataset remote callee self dataset w
  = (([], match members with
          | [] => None
          | _ :: _ => Some (Decoder (NameError "load_gnt_file"))
          end), w).
Proof.
  intros Hd. unfold load_dataset.
  rewrite (get_dataset_present _ _ _ members) by assumption.
  unfold glob_gnt. rewrite Hd. unfold PyScope.load_dataset.
  destruct members as [|path more]; [reflexivity|].
  cbn [PyScope.load_dataset_loop].
  now rewrite (proj2 two_names_unbound).
Qed.

End Fetch.

(** ** [DLProgress.hook] *)

Lemma last_cons (blocks : list Z) :
  forall b d, last (b :: blocks) d = last blocks b.
Proof.
  induction blocks as [|c blocks IH]; intros b d; [reflexivity|].
  change (last (b :: c :: blocks) d) with (last (c :: blocks) d).
  now rewrite (IH c d), (IH c b).
Qed.

(** X16. After any sequence of calls of [hook] with one block size, the
    increments handed to [update] add up to the distance between the last
    block number and the block number the object started with, times the
    block size; [last_block] is the last block number seen. *)
Theorem hook_increments_telescope (blocks : list Z) (block_size : Z)
        (total_size : option Z) (p0 : progress) :
  let p := fold_left (fun p b => hook p b block_size total_size) blocks p0 in
  (fold_right Z.add 0 (updates p)
   = fold_right Z.add 0 (updates p0)
     + (last blocks (last_block p0) - last_block p0) * block_size)%Z /\
  last_block p = last blocks (last_block p0).
Proof.
  cbv zeta. revert p0.
  induction blocks as [|b blocks IH]; intros p0.
  - cbn. split; [ring | reflexivity].
  - cbn [fold_left]. destruct (IH (hook p0 b block_size total_size)) as [Hs Hl].
    rewrite Hs, Hl. cbn [hook last_block updates].
    assert (forall l x, fold_right Z.add 0 (l ++ [x]) = fold_right Z.add 0 l + x)%Z
      as Hsum.
    { induction l as [|y l IHl]; intros x; cbn; [ring | rewrite IHl; ring]. }
    rewrite Hsum.
    rewrite last_cons. split; [ring | reflexivity].
Qed.


(** ** The properties in concrete worlds *)


Lemma good_archive_is_unpacked_witness :
  let (r, w') := get_dataset mirror ready "HWDB1.1tst_gnt"
                   (holding "HWDB1.1tst_gnt.zip" (Good ["a.gnt"; "b.gnt"])) in
  r = inr true /\
  glob_gnt w' "HWDB1.1tst_gnt" = ["a.gnt"; "b.gnt"] /\
  files w' = files (holding "HWDB1.1tst_gnt.zip" (Good ["a.gnt"; "b.gnt"])) /\
  trail w' = [Extracted "HWDB1.1tst_gnt.zip" "HWDB1.1tst_gnt"].
Proof.
  apply (good_archive_is_unpacked mirror ready "HWDB1.1tst_gnt"
           (holding "HWDB1.1tst_gnt.zip" (Good ["a.gnt"; "b.gnt"])));
    reflexivity.
Defined.

Lemma unreadable_archive_is_deleted_witness :
  let (r, w') := get_dataset mirror ready "HWDB1.1tst_gnt"
                   (holding "HWDB1.1tst_gnt.zip" Unreadable) in
  r = inl FileNotFoundError /\
  files w' "HWDB1.1tst_gnt.zip" = None /\
  dirs w' = dirs (holding "HWDB1.1tst_gnt.zip" Unreadable) /\
  In (Removed "HWDB1.1tst_gnt.zip") (trail w').
Proof.
  apply (unreadable_archive_is_deleted mirror ready "HWDB1.1tst_gnt"
           (holding "HWDB1.1tst_gnt.zip" Unreadable));
    reflexivity.
Defined.


Lemma false_only_after_damaged_archive_witness :
  let w := holding "HWDB1.1tst_gnt.zip" (Damaged ["a.gnt"]) in
  let w' := snd (get_dataset mirror ready "HWDB1.1tst_gnt" w) in
  exists members,
    dirs w "HWDB1.1tst_gnt" = None /\
    files w "HWDB1.1tst_gnt.zip" = Some (Damaged members) /\
    files w' "HWDB1.1tst_gnt.zip" = None /\
    dirs w' "HWDB1.1tst_gnt" = Some members /\
    get_dataset mirror ready "HWDB1.1tst_gnt" w' = (inr true, w').
Proof.
  apply (false_only_after_damaged_archive mirror ready "HWDB1.1tst_gnt").
  reflexivity.
Defined.

Lemma get_all_datasets_all_present_witness :
  get_all_datasets mirror ready installed = (inr true, installed).
Proof.
  apply (get_all_datasets_all_present mirror ready PyScope.the_datasets installed).
  - reflexivity.
  - intros d [<-|[<-|[<-|[<-|[]]]]]; reflexivity.
Defined.


Lemma load_dataset_on_installed_witness :
  load_dataset mirror (fun _ => (@nil nat, Exhausted)) ready "HWDB1.1tst_gnt" installed
  = (([], Some (Decoder (NameError "load_gnt_file"))), installed).
Proof.
  apply (load_dataset_on_installed mirror (fun _ => (@nil nat, Exhausted)) ready
           "HWDB1.1tst_gnt" installed ["1.gnt"]).
  reflexivity.
Defined.

End DatasetFacts.

(** * More on the decoder *)

Section DecoderMore.

Variable Image : Type.
Variable toimage : ndarray -> result Image.
Variable gb2312_decode : list byte -> option (list N).

Local Abbreviation loop_body := (loop_body toimage gb2312_decode).
Local Abbreviation load_gnt_file := (load_gnt_file toimage gb2312_decode).
Local Abbreviation decodes_to := (decodes_to toimage gb2312_decode).
Local Abbreviation converted := (converted toimage gb2312_decode).

(** A turn that yields has read one well-formed record, and the item is
    what that record converts to. *)
Lemma yield_is_record (f f' : list byte) (it : item Image) :
  loop_body f = Yield it f' ->
  exists r, well_formed r /\ decodes_to r it /\ f = encode_record r ++ f'.
Proof.
  intros H. apply loop_body_Yield in H
    as (packed & c0 & c1 & w & h & payload & -> & Hp & Hw & Hh & Hsz & Hc).
  destruct (le_uint_four packed Hp) as [Hlen Hle].
  exists {| packed_length := le_uint packed; label0 := c0; label1 := c1;
            width := w; height := h; pixels := payload |}.
  split; [|split].
  - repeat split; assumption.
  - unfold converted, decode, grid in Hc.
    unfold decodes_to. cbn [label0 label1 width height pixels].
    destruct (gb2312_decode [c0; c1]) as [text|]; [|discriminate].
    cbn [bind ret] in Hc.
    destruct (toimage _) as [e|image]; [discriminate|].
    cbn [bind ret] in Hc. injection Hc as <-. now split.
  - unfold encode_record, encode_header, record_body.
    cbn [packed_length label0 label1 width height pixels].
    rewrite Hle, <- !app_assoc. reflexivity.
Qed.

(** X1. An incomplete header, of one to nine bytes, after whole records:
    the items of the records are yielded and then [struct.error] is
    raised, whichever of the four header fields is cut. *)
Theorem incomplete_header_raises (rs : list gnt_record)
        (items : list (item Image)) (tail : list byte) :
  Forall well_formed rs ->
  Forall2 decodes_to rs items ->
  0 < size_of tail < 10 ->
  load_gnt_file (encode_stream rs ++ tail) = Some (items, Failed struct_error).
Proof.
  intros Hwf Hdec Htail.
  rewrite (load_gnt_file_prefix _ _ _ rs items) by assumption.
  rewrite load_gnt_file_unfold, loop_body_short by assumption.
  now rewrite app_nil_r.
Qed.

(** X2. Nothing is invented: whatever the generator yields, and however
    it ends, the stream starts with as many well-formed records as there
    are items, item number k is what record number k converts to, and the
    bytes after these records give no item on their own. *)
Theorem yielded_items_are_records (items : list (item Image)) :
  forall (f : list byte) (e : ending),
    load_gnt_file f = Some (items, e) ->
    exists rs tail,
      Forall well_formed rs /\ Forall2 decodes_to rs items /\
      f = encode_stream rs ++ tail /\
      load_gnt_file tail = Some ([], e).
Proof.
  induction items as [|it items IH]; intros f e H.
  - exists [], f. repeat split; try constructor.
    rewrite load_gnt_file_unfold in H. rewrite load_gnt_file_unfold.
    destruct (loop_body f) as [|e'|it' f']; exact H.
  - rewrite load_gnt_file_unfold in H.
    destruct (loop_body f) as [|e'|it' f'] eqn:E; try discriminate.
    destruct (load_gnt_file f') as [[its e']|] eqn:E'; [|discriminate].
    injection H as -> -> ->.
    destruct (IH f' e E') as (rs & tail & Hwf & Hdec & -> & Htail).
    apply yield_is_record in E as (r & Hr & Hit & ->).
    exists (r :: rs), tail.
    split; [now constructor|]. split; [now constructor|]. split; [|assumption].
    unfold encode_stream. cbn [map List.concat]. now rewrite <- app_assoc.
Qed.

(** X3. The cursor after a yield: the turn has consumed the ten header
    bytes and [width * height] payload bytes, where width and height are
    the little-endian values of bytes 6-7 and 8-9 of what was unread. *)
Theorem cursor_after_yield (f f' : list byte) (it : item Image) :
  loop_body f = Yield it f' ->
  let w := le_uint (firstn 2 (skipn 6 f)) in
  let h := le_uint (firstn 2 (skipn 8 f)) in
  f' = skipn (10 + N.to_nat (w * h)) f /\
  List.length f = (List.length f' + 10 + N.to_nat (w * h))%nat.
Proof.
  intros H. apply loop_body_Yield in H
    as (packed & c0 & c1 & w & h & payload & -> & Hp & Hw & Hh & Hsz & _).
  destruct packed as [|p0 [|p1 [|p2 [|p3 [|p4 packed]]]]];
    try (exfalso; unfold size_of in Hp; cbn [List.length] in Hp; lia).
  unfold record_body, le16. cbn [app skipn firstn].
  change (le_uint [byte_of_N w; byte_of_N (w / 256)]) with (le_uint (le16 w)).
  change (le_uint [byte_of_N h; byte_of_N (h / 256)]) with (le_uint (le16 h)).
  rewrite !le_uint_le16 by assumption. cbv zeta.
  assert (List.length payload = N.to_nat (w * h)) as Hlen
    by (unfold size_of in Hsz; lia).
  split.
  - change (10 + N.to_nat (w * h))%nat
      with (S (S (S (S (S (S (S (S (S (S (N.to_nat (w * h)))))))))))).
    cbn [skipn]. rewrite <- Hlen, skipn_app, skipn_all, Nat.sub_diag.
    reflexivity.
  - cbn [List.length]. rewrite length_app. lia.
Qed.

(** X4. Composition: well-formed records that convert, followed by any
    bytes at all: the items of the records come first, then the run of the
    generator on the remaining bytes. *)
Theorem records_then_rest (rs : list gnt_record) (items : list (item Image))
        (tail : list byte) :
  Forall well_formed rs ->
  Forall2 decodes_to rs items ->
  load_gnt_file (encode_stream rs ++ tail)
  = match load_gnt_file tail with
    | Some (its, e) => Some (items ++ its, e)
    | None => None
    end.
Proof. intros Hwf Hdec. now apply load_gnt_file_prefix. Qed.

(** X5. An exception of [toimage] ends the generator like any other: the
    items of the records in front are out, the record whose array was
    refused gives no item, nothing after it is read, and the exception is
    the one [toimage] raised. *)
Theorem toimage_error_aborts (rs : list gnt_record) (items : list (item Image))
        (r : gnt_record) (text : list N) (e : exception) (rest : list byte) :
  Forall well_formed rs ->
  Forall2 decodes_to rs items ->
  well_formed r ->
  gb2312_decode [label0 r; label1 r] = Some text ->
  toimage {| shape := [height r; width r]; data := map Byte.to_N (pixels r) |}
  = inl e ->
  load_gnt_file (encode_stream rs ++ encode_record r ++ rest)
  = Some (items, Failed e).
Proof.
  intros Hwf Hdec Hr Hl Hi.
  rewrite (load_gnt_file_prefix _ _ _ rs items) by assumption.
  rewrite load_gnt_file_unfold, loop_body_record by assumption.
  unfold converted, decode, grid. rewrite Hl. cbn [bind ret]. rewrite Hi.
  cbn [bind]. now rewrite app_nil_r.
Qed.

End DecoderMore.

Lemma incomplete_header_raises_witness :
  load_gnt_file array_image gb2312_sample
    (encode_stream [sample_record] ++ [x08; x00; x00; x00; xc4; xe3; x01; x00; x01])
  = Some ([({| shape := [1; 2]; data := [7; 255] |}, [20320])],
          Failed struct_error).
Proof.
  apply (incomplete_header_raises ndarray array_image gb2312_sample
           [sample_record]).
  - repeat constructor.
  - repeat constructor.
  - split; reflexivity.
Defined.

Lemma yielded_items_are_records_witness :
  exists rs tail,
    Forall well_formed rs /\
    Forall2 (decodes_to array_image gb2312_sample) rs
      [({| shape := [1; 2]; data := [7; 255] |}, [20320])] /\
    encode_record sample_record ++ [xff; xff] = encode_stream rs ++ tail /\
    load_gnt_file array_image gb2312_sample tail = Some ([], Failed struct_error).
Proof.
  apply (yielded_items_are_records ndarray array_image gb2312_sample).
  reflexivity.
Defined.

Lemma cursor_after_yield_witness :
  encode_record sample_record2
  = skipn (10 + N.to_nat (2 * 1))
      (encode_record sample_record ++ encode_record sample_record2) /\
  List.length (encode_record sample_record ++ encode_record sample_record2)
  = (List.length (encode_record sample_record2) + 10 + N.to_nat (2 * 1))%nat.
Proof.
  apply (cursor_after_yield ndarray array_image gb2312_sample
           (encode_record sample_record ++ encode_record sample_record2)
           (encode_record sample_record2)
           ({| shape := [1; 2]; data := [7; 255] |}, [20320])).
  reflexivity.
Defined.

Lemma records_then_rest_witness :
  load_gnt_file array_image gb2312_sample
    (encode_stream [sample_record] ++ encode_record sample_record2)
  = Some ([({| shape := [1; 2]; data := [7; 255] |}, [20320]);
           ({| shape := [2; 3]; data := [1; 2; 3; 4; 5; 6] |}, [22909])],
          Exhausted).
Proof.
  apply (records_then_rest ndarray array_image gb2312_sample [sample_record]
           [({| shape := [1; 2]; data := [7; 255] |}, [20320])]
           (encode_record sample_record2)).
  - repeat constructor.
  - repeat constructor.
Defined.

Lemma toimage_error_aborts_witness :
  load_gnt_file (fun a : ndarray => if 4 <? N.of_nat (List.length (data a))
                                    then raise (LibraryError 1) else ret a)
    gb2312_sample
    (encode_stream [sample_record] ++ encode_record sample_record2
       ++ encode_record sample_record)
  = Some ([({| shape := [1; 2]; data := [7; 255] |}, [20320])],
          Failed (LibraryError 1)).
Proof.
  apply (toimage_error_aborts ndarray
           (fun a : ndarray => if 4 <? N.of_nat (List.length (data a))
                               then raise (LibraryError 1) else ret a)
           gb2312_sample [sample_record]
           [({| shape := [1; 2]; data := [7; 255] |}, [20320])]
           sample_record2 [22909]).
  - repeat constructor.
  - repeat constructor.
  - repeat split.
  - reflexivity.
  - reflexivity.
Defined.

(** * The decoder with scipy's [toimage] *)

Lemma one_by_one_is_black (p : byte) :
  Scipy.toimage {| shape := [1; 1]; data := map Byte.to_N [p] |}
  = inr {| Scipy.size := (1, 1); Scipy.pixels := [0] |}.
Proof.
  unfold Scipy.toimage, Scipy.bytescale.
  cbn [shape data map fold_right bind ret].
  rewrite N.sub_diag. reflexivity.
Qed.


(** C1, as the code behaves. The file of one record of width 1 and
    height 1, whatever its pixel [p] and its length field: the item has
    the label of the record and an image of size 1 x 1, but the pixel of
    that image is 0, not [p]: the array handed to [toimage] is an array of
    integers, not of bytes, and [toimage] stretches it to the range 0 to
    255. The pixel bytes do not come back. *)
Theorem round_trip_rescales_pixels (gb2312_decode : list byte -> option (list N))
        (len : N) (c0 c1 p : byte) (text : list N) :
  len < 4294967296 ->
  gb2312_decode [c0; c1] = Some text ->
  load_gnt_file Scipy.toimage gb2312_decode
    (encode_record {| packed_length := len; label0 := c0; label1 := c1;
                      width := 1; height := 1; pixels := [p] |})
  = Some ([({| Scipy.size := (1, 1); Scipy.pixels := [0] |}, text)], Exhausted).
Proof.
  intros Hlen Hl. apply round_trip.
  - repeat split; assumption.
  - exact Hl.
  - apply one_by_one_is_black.
Qed.

(** C2, as the code behaves. The stream of the two sample records (one
    row of two pixels 7, 255, then two rows of three pixels 1 to 6) gives
    two items, in the order of the records, with the labels of the
    records and images of size 2 x 1 and 3 x 2 whose bytes follow the
    payload row after row; but the bytes are 0, 255 and 0, 51, 102, 153,
    204, 255: each image is stretched to the range 0 to 255, so the pixel
    content is not that of the records. *)
Theorem sequencing_rescales_pixels (gb2312_decode : list byte -> option (list N))
        (text1 text2 : list N) :
  gb2312_decode [xc4; xe3] = Some text1 ->
  gb2312_decode [xba; xc3] = Some text2 ->
  load_gnt_file Scipy.toimage gb2312_decode
    (encode_stream [sample_record; sample_record2])
  = Some ([({| Scipy.size := (2, 1); Scipy.pixels := [0; 255] |}, text1);
           ({| Scipy.size := (3, 2);
               Scipy.pixels := [0; 51; 102; 153; 204; 255] |}, text2)],
          Exhausted).
Proof.
  intros H1 H2. apply sequencing.
  - repeat constructor.
  - constructor; [split; [exact H1 | vm_compute; reflexivity]|].
    constructor; [split; [exact H2 | vm_compute; reflexivity]|].
    constructor.
Qed.


Lemma round_trip_rescales_pixels_witness :
  load_gnt_file Scipy.toimage gb2312_sample (encode_record one_pixel)
  = Some ([({| Scipy.size := (1, 1); Scipy.pixels := [0] |}, [20320])],
          Exhausted).
Proof.
  apply (round_trip_rescales_pixels gb2312_sample 7 xc4 xe3 x64 [20320]);
    reflexivity.
Defined.

Lemma sequencing_rescales_pixels_witness :
  load_gnt_file Scipy.toimage gb2312_sample
    (encode_stream [sample_record; sample_record2])
  = Some ([({| Scipy.size := (2, 1); Scipy.pixels := [0; 255] |}, [20320]);
           ({| Scipy.size := (3, 2);
               Scipy.pixels := [0; 51; 102; 153; 204; 255] |}, [22909])],
          Exhausted).
Proof.
  apply (sequencing_rescales_pixels gb2312_sample [20320] [22909]);
    reflexivity.
Defined.


